(** * languubot: the Streamlit chat application of [app.py]

    A shallow embedding of [app.py]: the session state
    ([st.session_state]), the authentication functions [signup], [login]
    and [logout], the one-node LangGraph workflow built by [create_graph],
    and one execution of the script body [main] as Streamlit runs it for
    one user interaction.

    Conventions.
    - A Python [str] is a [string]; one [ascii] stands for one character,
      so [len] is [String.length] and [==] is equality of strings.
    - A Python [dict] is a [gmap]; [k in d] is [d !! k] being [Some _],
      [d[k] = v] is [<[k:=v]> d].
    - [datetime.now().isoformat()] is a reading of an external clock:
      [signup] takes the reading as an argument, the script counts its
      readings.
    - The hosted chat model is external: [ChatOpenAI.invoke] is an oracle
      that answers a list of messages with a reply or raises.
    - Streamlit and LangGraph are libraries, not part of [app.py]; what
      the script uses of them ([st.rerun], [st.stop], [st.cache_resource],
      a compiled graph with a reducer and a checkpointer) is modelled by
      its documented behaviour, next to the line that uses it. *)

From Stdlib Require Import QArith.
From stdpp Require Import base option gmap strings list pretty.

Open Scope string_scope.
Open Scope list_scope.

(** ** Data model *)

(** The value stored under a username in [st.session_state.users]:
    [{'password': password, 'created_at': ...}]. *)
Record user_record := mk_user {
  password : string;
  created_at : string
}.

(** The two literals that [main] writes under the key ["role"]. *)
Inductive role_tag := user | assistant.

(** One entry of a chat history:
    [{"role": ..., "content": ..., "timestamp": ...}]. *)
Record chat_entry := mk_entry {
  role : role_tag;
  content : string;
  timestamp : string
}.

(** [st.session_state.username] is [None] or a [str]; it is also the key
    under which [main] reads and writes [st.session_state.chat_histories],
    so those keys are [option string] ([None] is a hashable Python key). *)
Record session_state := mk_session {
  logged_in : bool;
  username : option string;
  users : gmap string user_record;
  chat_histories : gmap (option string) (list chat_entry)
}.

(** Lines 14-22: the session state of a fresh browser session. *)
Definition initial_session : session_state :=
  {| logged_in := false; username := None; users := ∅; chat_histories := ∅ |}.

(** Truth value of a Python [str]: only the empty string is false. *)
Definition truthy (s : string) : bool :=
  match s with
  | EmptyString => false
  | String _ _ => true
  end.

(** [st.session_state.chat_histories.get(k, [])] (line 152). *)
Definition transcript (s : session_state) (k : option string) : list chat_entry :=
  default [] (chat_histories s !! k).

(** ** Authentication functions (lines 72-99)

    Each returns the Python result tuple [(success, message)] together
    with the session state it leaves behind. *)

Definition signup (now : string) (uname pwd : string) (s : session_state)
  : (bool * string) * session_state :=
  match users s !! uname with
  | Some _ => ((false, "Username already exists"), s)
  | None =>
    if (String.length pwd <? 6)%nat then
      ((false, "Password must be at least 6 characters"), s)
    else if negb (truthy uname) || negb (truthy pwd) then
      ((false, "Username and password cannot be empty"), s)
    else
      ((true, "Account created successfully"),
       {| logged_in := logged_in s;
          username := username s;
          users := <[uname := {| password := pwd; created_at := now |}]> (users s);
          chat_histories := <[Some uname := []]> (chat_histories s) |})
  end.

Definition login (uname pwd : string) (s : session_state)
  : (bool * string) * session_state :=
  match users s !! uname with
  | None => ((false, "Username not found"), s)
  | Some u =>
    if negb (String.eqb (password u) pwd) then
      ((false, "Incorrect password"), s)
    else
      ((true, "Logged in successfully"),
       {| logged_in := true;
          username := Some uname;
          users := users s;
          chat_histories := chat_histories s |})
  end.

Definition logout (s : session_state) : session_state :=
  {| logged_in := false;
     username := None;
     users := users s;
     chat_histories := chat_histories s |}.

(** ** LangChain messages and the hosted chat model *)

Inductive lc_message :=
| HumanMessage (text : string)
| AIMessage (text : string).

(** The [.content] attribute of a message. *)
Definition message_content (m : lc_message) : string :=
  match m with
  | HumanMessage c => c
  | AIMessage c => c
  end.

(** Lines 195-200: the loop that turns a chat history into the
    [messages] list handed to the graph. *)
Definition to_lc_message (e : chat_entry) : lc_message :=
  match role e with
  | user => HumanMessage (content e)
  | assistant => AIMessage (content e)
  end.

Definition prepare_messages (history : list chat_entry) : list lc_message :=
  map to_lc_message history.

(** The client built at lines 33-37. *)
Record ChatOpenAI := mk_llm {
  model : string;
  temperature : Q;
  openai_api_key : string
}.

(** A Python call that returns a value or raises an [Exception] (the
    string is [str(e)]). *)
Inductive py_result (A : Type) :=
| Returned (a : A)
| Raised (e : string).
Arguments Returned {A} a.
Arguments Raised {A} e.

(** The workflow compiled by [create_graph]: one node ["chatbot"], entry
    point ["chatbot"], one edge to [END], and a [MemorySaver] checkpointer.
    [memory] is the checkpointer's content: for each [thread_id] the value
    of the state channel ["messages"] saved last. *)
Record compiled_graph := mk_graph {
  node_llm : ChatOpenAI;
  memory : gmap (option string) (list lc_message)
}.

(** ** What one script run does to the outside *)

(** Elements shown in the page, and calls made, in order. Static page
    chrome (title, headers, tabs, divider, the welcome text) is not
    recorded. *)
Inductive event :=
| st_error (body : string)
| st_success (body : string)
| st_info (body : string)
| st_chat_message (r : role_tag) (body : string)
| called_signup (uname pwd : string)
| called_login (uname pwd : string)
| called_logout
| llm_invoke (payload : list lc_message).

(** The payloads of the completion calls in a trace, oldest first. *)
Fixpoint completion_calls (t : list event) : list (list lc_message) :=
  match t with
  | [] => []
  | llm_invoke p :: t' => p :: completion_calls t'
  | _ :: t' => completion_calls t'
  end.

(** Everything that outlives one script run: the session state, the two
    [st.cache_resource] caches, the number of clock readings taken, and
    the record of what happened. *)
Record world := mk_world {
  session : session_state;
  llm_cache : option ChatOpenAI;
  graph_cache : option compiled_graph;
  clock_reads : nat;
  trace : list event
}.

(** Streamlit's script-control exceptions. Both derive from
    [BaseException], so [except Exception] does not catch them. *)
Inductive control := Rerun | Stop.

(** A piece of the script: it changes the world and either yields a
    value or leaves through a script-control exception. *)
Definition script (A : Type) : Type := world -> (A + control) * world.

Definition ret {A} (a : A) : script A := fun w => (inl a, w).

Definition bind {A B} (c : script A) (k : A -> script B) : script B :=
  fun w =>
    match c w with
    | (inl a, w') => k a w'
    | (inr x, w') => (inr x, w')
    end.

Definition raise {A} (x : control) : script A := fun w => (inr x, w).

Declare Scope script_scope.
Delimit Scope script_scope with script.
Notation "'do' x <- c ; k" := (bind c (fun x => k))
  (at level 10, x name, c at level 99, k at level 200) : script_scope.

Definition get_session : script session_state := fun w => (inl (session w), w).

Definition put_session (s : session_state) : script unit :=
  fun w => (inl (), {| session := s; llm_cache := llm_cache w;
                       graph_cache := graph_cache w;
                       clock_reads := clock_reads w; trace := trace w |}).

Definition emit (e : event) : script unit :=
  fun w => (inl (), {| session := session w; llm_cache := llm_cache w;
                       graph_cache := graph_cache w;
                       clock_reads := clock_reads w; trace := trace w ++ [e] |}).

Definition when (b : bool) (c : script unit) : script unit :=
  if b then c else ret ().

(** [st.session_state.chat_histories[k] = v]. *)
Definition set_history (k : option string) (v : list chat_entry)
    (s : session_state) : session_state :=
  {| logged_in := logged_in s; username := username s; users := users s;
     chat_histories := <[k := v]> (chat_histories s) |}.

(** [st.session_state.chat_histories[k].append(e)]; the key is present
    wherever [main] appends (line 165 makes it so), and [d[k]] on a missing
    key would raise, which the guard at line 164 excludes. *)
Definition append_history (k : option string) (e : chat_entry)
    (s : session_state) : session_state :=
  set_history k (transcript s k ++ [e]) s.

(** [str(x)] for [x] being [None] or a [str], as an f-string prints it. *)
Definition py_str (x : option string) : string :=
  match x with
  | Some u => u
  | None => "None"
  end.

(** The widget values one script run reads: text inputs by their keys,
    [st.button] results, and the value of [st.chat_input]. *)
Record widgets := mk_widgets {
  login_user : string;
  login_pass : string;
  login_btn : bool;
  signup_user : string;
  signup_pass : string;
  signup_pass_confirm : string;
  signup_btn : bool;
  logout_btn : bool;
  clear_btn : bool;
  chat_input : option string
}.

Section Script.

(** The surroundings of the application: the secrets file
    ([st.secrets]), the hosted model (what the [n]-th completion call of
    a client answers to a list of messages) and the clock (the [n]-th
    reading of [datetime.now().isoformat()]). *)
Variable secrets : gmap string string.
Variable completion : ChatOpenAI -> nat -> list lc_message -> py_result string.
Variable clock : nat -> string.

Open Scope script_scope.

(** [datetime.now().isoformat()]. *)
Definition datetime_now : script string :=
  fun w => (inl (clock (clock_reads w)),
            {| session := session w; llm_cache := llm_cache w;
               graph_cache := graph_cache w;
               clock_reads := S (clock_reads w); trace := trace w |}).

(** Lines 29-40. [st.cache_resource] keeps the client once it was
    built; a run that ends in [st.stop()] caches nothing. *)
Definition get_llm : script ChatOpenAI :=
  fun w =>
    match llm_cache w with
    | Some llm => (inl llm, w)
    | None =>
      match secrets !! "OPENAI_API_KEY" with
      | Some api_key =>
        let llm := {| model := "gpt-4o-mini"; temperature := 7 # 10;
                      openai_api_key := api_key |} in
        (inl llm, {| session := session w; llm_cache := Some llm;
                     graph_cache := graph_cache w;
                     clock_reads := clock_reads w; trace := trace w |})
      | None =>
        (do _ <- emit (st_error "API key not found in secrets. Please add OPENAI_API_KEY to your .streamlit/secrets.toml file");
         raise Stop) w
      end
    end.

(** Lines 49-69, with the same caching. The [MemorySaver] starts
    empty. *)
Definition create_graph : script compiled_graph :=
  fun w =>
    match graph_cache w with
    | Some app => (inl app, w)
    | None =>
      (do llm <- get_llm;
       let app := {| node_llm := llm; memory := ∅ |} in
       fun w' => (inl app, {| session := session w'; llm_cache := llm_cache w';
                              graph_cache := Some app;
                              clock_reads := clock_reads w'; trace := trace w' |})) w
    end.

(** Lines 43-46: the node hands the state's messages to the model and
    returns the reply as a one-element update of ["messages"]. *)
Definition chatbot_node (llm : ChatOpenAI) (messages : list lc_message)
  : script (py_result (list lc_message)) :=
  fun w =>
    let n := length (completion_calls (trace w)) in
    (do _ <- emit (llm_invoke messages);
     ret (match completion llm n messages with
          | Returned c => Returned [AIMessage c]
          | Raised e => Raised e
          end)) w.

(** [MemorySaver.put] on the cached graph. *)
Definition save_checkpoint (app : compiled_graph) (thread_id : option string)
    (messages : list lc_message) : script unit :=
  fun w => (inl (),
            {| session := session w; llm_cache := llm_cache w;
               graph_cache := Some {| node_llm := node_llm app;
                                      memory := <[thread_id := messages]> (memory app) |};
               clock_reads := clock_reads w; trace := trace w |}).

(** [app.invoke({"messages": messages}, config)] with
    [config = {"configurable": {"thread_id": thread_id}}] (lines 203-207),
    as LangGraph runs a graph compiled with a checkpointer: the run starts
    from the state saved for the thread, and the input is an update of it.
    The channel ["messages"] is declared with the reducer [operator.add]
    (line 26), so the input list is concatenated to what the checkpointer
    holds for the thread; that state is checkpointed, the node runs once
    on it, its update is concatenated in turn, the result is checkpointed
    and returned. An exception of the node leaves [invoke] to the
    caller. *)
Definition invoke (app : compiled_graph) (messages : list lc_message)
    (thread_id : option string) : script (py_result (list lc_message)) :=
  let state := default [] (memory app !! thread_id) ++ messages in
  do _ <- save_checkpoint app thread_id state;
  do update <- chatbot_node (node_llm app) state;
  match update with
  | Raised e => ret (Raised e)
  | Returned reply =>
    do _ <- save_checkpoint app thread_id (state ++ reply);
    ret (Returned (state ++ reply))
  end.

(** *** The script body (lines 102-241) *)

Definition call_signup (uname pwd : string) : script (bool * string) :=
  do _ <- emit (called_signup uname pwd);
  fun w =>
    let '(r, s') := signup (clock (clock_reads w)) uname pwd (session w) in
    (inl r, {| session := s'; llm_cache := llm_cache w;
               graph_cache := graph_cache w;
               clock_reads := if r.1 then S (clock_reads w) else clock_reads w;
               trace := trace w |}).

Definition call_login (uname pwd : string) : script (bool * string) :=
  do _ <- emit (called_login uname pwd);
  do s <- get_session;
  let '(r, s') := login uname pwd s in
  do _ <- put_session s';
  ret r.

Definition call_logout : script unit :=
  do _ <- emit called_logout;
  do s <- get_session;
  put_session (logout s).

(** Lines 112-126. *)
Definition login_tab (wd : widgets) : script unit :=
  when (login_btn wd)
    (if truthy (login_user wd) && truthy (login_pass wd) then
       do r <- call_login (login_user wd) (login_pass wd);
       if r.1 then
         do _ <- emit (st_success r.2);
         raise Rerun
       else emit (st_error r.2)
     else emit (st_error "Please enter both username and password")).

(** Lines 128-144. *)
Definition signup_tab (wd : widgets) : script unit :=
  when (signup_btn wd)
    (if negb (truthy (signup_user wd)) || negb (truthy (signup_pass wd)) then
       emit (st_error "Please fill in all fields")
     else if negb (String.eqb (signup_pass wd) (signup_pass_confirm wd)) then
       emit (st_error "Passwords don't match")
     else
       do r <- call_signup (signup_user wd) (signup_pass wd);
       if r.1 then emit (st_success r.2) else emit (st_error r.2)).

(** Lines 145-157. *)
Definition account_panel (wd : widgets) : script unit :=
  do s <- get_session;
  do _ <- emit (st_success ("Logged in as: **" +:+ py_str (username s) +:+ "**"));
  do _ <- when (logout_btn wd) (do _ <- call_logout; raise Rerun);
  do s <- get_session;
  do _ <- emit (st_info ("💬 Total messages: "
                         +:+ pretty (length (transcript s (username s)))));
  when (clear_btn wd)
    (do s <- get_session;
     do _ <- put_session (set_history (username s) [] s);
     do _ <- emit (st_success "Chat history cleared!");
     raise Rerun).

(** Lines 106-157. *)
Definition sidebar (wd : widgets) : script unit :=
  do s <- get_session;
  if negb (logged_in s) then
    do _ <- login_tab wd;
    signup_tab wd
  else account_panel wd.

(** Lines 220-222: the [except Exception] handler. *)
Definition show_error (e : string) : script unit :=
  do _ <- emit (st_error ("Error: " +:+ e));
  emit (st_info "Please check your API configuration").

(** Lines 176-222: what happens once [st.chat_input] returned a
    non-empty [prompt]. Everything from [create_graph] on is inside the
    [try]. *)
Definition chat_turn (uname : option string) (prompt : string) : script unit :=
  do now <- datetime_now;
  do s <- get_session;
  do _ <- put_session (append_history uname
            {| role := user; content := prompt; timestamp := now |} s);
  do _ <- emit (st_chat_message user prompt);
  do app <- create_graph;
  do s <- get_session;
  let messages := prepare_messages (transcript s uname) in
  do result <- invoke app messages uname;
  match result with
  | Returned final =>
    match last final with
    | Some m =>
      let ai_response := message_content m in
      do _ <- emit (st_chat_message assistant ai_response);
      do now <- datetime_now;
      do s <- get_session;
      put_session (append_history uname
        {| role := assistant; content := ai_response; timestamp := now |} s)
    | None => show_error "list index out of range"
    end
  | Raised e => show_error e
  end.

(** Lines 160-222. *)
Definition chat_interface (wd : widgets) : script unit :=
  do s <- get_session;
  let uname := username s in
  do _ <- match chat_histories s !! uname with
          | None => put_session (set_history uname [] s)
          | Some _ => ret ()
          end;
  do s <- get_session;
  do _ <- foldr (fun m k => do _ <- emit (st_chat_message (role m) (content m)); k)
                (ret ()) (transcript s uname);
  match chat_input wd with
  | Some prompt => when (truthy prompt) (chat_turn uname prompt)
  | None => ret ()
  end.

Definition main (wd : widgets) : script unit :=
  do _ <- sidebar wd;
  do s <- get_session;
  if logged_in s then chat_interface wd
  else emit (st_info "👈 Please login or sign up to start chatting").

(** *** The script runner

    [st.rerun()] abandons the run and executes the script again; in that
    run no button reads as pressed and [st.chat_input] returns [None],
    while text inputs keep their values. [st.stop()] ends the run. *)
Definition released (wd : widgets) : widgets :=
  {| login_user := login_user wd; login_pass := login_pass wd;
     login_btn := false;
     signup_user := signup_user wd; signup_pass := signup_pass wd;
     signup_pass_confirm := signup_pass_confirm wd;
     signup_btn := false; logout_btn := false; clear_btn := false;
     chat_input := None |}.

Definition run_script (wd : widgets) : script unit :=
  fun w =>
    match main wd w with
    | (inr Rerun, w') => main (released wd) w'
    | r => r
    end.

End Script.

(** ** Notions used to state the properties *)

(** The client [get_llm] returns in world [w], if it returns. *)
Definition client_for (secrets : gmap string string) (w : world) : option ChatOpenAI :=
  match llm_cache w with
  | Some llm => Some llm
  | None =>
    (fun api_key => {| model := "gpt-4o-mini"; temperature := 7 # 10;
                       openai_api_key := api_key |})
      <$> secrets !! "OPENAI_API_KEY"
  end.

(** The graph [create_graph] returns in world [w], if it returns. *)
Definition graph_for (secrets : gmap string string) (w : world) : option compiled_graph :=
  match graph_cache w with
  | Some app => Some app
  | None => (fun llm => {| node_llm := llm; memory := ∅ |}) <$> client_for secrets w
  end.

(** What the sidebar and the history loop show for a logged-in user before
    the chat input is looked at. *)
Definition page_for (s : session_state) : list event :=
  [st_success ("Logged in as: **" +:+ py_str (username s) +:+ "**");
   st_info ("💬 Total messages: " +:+ pretty (length (transcript s (username s))))]
  ++ map (fun m => st_chat_message (role m) (content m)) (transcript s (username s)).

(** Lines 164-165: the current user's history exists once the chat
    interface is entered. *)
Definition ensure_history (s : session_state) : session_state :=
  match chat_histories s !! username s with
  | None => set_history (username s) [] s
  | Some _ => s
  end.

(** The world in which a logged-in pass reaches the chat input: the
    history of the current user exists and the page has been shown. *)
Definition entered (w : world) : world :=
  {| session := ensure_history (session w); llm_cache := llm_cache w;
     graph_cache := graph_cache w; clock_reads := clock_reads w;
     trace := trace w ++ page_for (session w) |}.

(** The entry line 177 appends for [prompt] in world [w]. *)
Definition user_entry (clock : nat -> string) (w : world) (prompt : string) : chat_entry :=
  {| role := user; content := prompt; timestamp := clock (clock_reads w) |}.

(** The entry line 214 appends for the reply [r] of a turn begun in [w]. *)
Definition assistant_entry (clock : nat -> string) (w : world) (r : string) : chat_entry :=
  {| role := assistant; content := r; timestamp := clock (S (clock_reads w)) |}.

(** The messages the node of [app] hands to the model when the graph is
    invoked on thread [k] with the history of [k] extended by [prompt]. *)
Definition turn_payload (clock : nat -> string) (app : compiled_graph)
    (k : option string) (prompt : string) (w : world) : list lc_message :=
  default [] (memory app !! k)
  ++ prepare_messages (transcript (session w) k ++ [user_entry clock w prompt]).

(** The text [get_llm] shows before it stops the script (line 39). *)
Definition api_key_not_found : string :=
  "API key not found in secrets. Please add OPENAI_API_KEY to your .streamlit/secrets.toml file".

(** The invitation an anonymous session is shown (line 225). *)
Definition please_login : string := "👈 Please login or sign up to start chatting".

(** A run in which the logged-in user submits [prompt] and presses no
    button. *)
Definition submits (wd : widgets) (prompt : string) : Prop :=
  logout_btn wd = false /\ clear_btn wd = false /\
  chat_input wd = Some prompt /\ prompt <> "".

(** The world after a sequence of script runs, one per interaction,
    oldest first. *)
Definition run_all (secrets : gmap string string)
    (completion : ChatOpenAI -> nat -> list lc_message -> py_result string)
    (clock : nat -> string) (runs : list widgets) (w : world) : world :=
  foldl (fun w wd => (run_script secrets completion clock wd w).2) w runs.

(** [logged_in] and [username] agree: a logged-in session is bound to a
    user of the credential store, an anonymous one to [None]. *)
Definition auth_consistent (s : session_state) : Prop :=
  if logged_in s
  then match username s with
       | Some u => is_Some (users s !! u)
       | None => False
       end
  else username s = None.

(** Every chat history is filed under the name of a user of the
    credential store. *)
Definition histories_owned (s : session_state) : Prop :=
  map_Forall (fun k (_ : list chat_entry) =>
                match k with
                | Some u => is_Some (users s !! u)
                | None => False
                end)
             (chat_histories s).

(** Every stored account has a non-empty username and a password of at
    least 6 characters. *)
Definition credentials_valid (s : session_state) : Prop :=
  map_Forall (fun u r => u <> "" /\ 6 <= String.length (password r)) (users s).

(** The three together. *)
Definition session_ok (s : session_state) : Prop :=
  auth_consistent s /\ histories_owned s /\ credentials_valid s.

(** Whether the Login tab of a run logs the session in (lines 117-120):
    the button is pressed, both fields are filled and [login] succeeds. *)
Definition login_accepted (wd : widgets) (s : session_state) : bool :=
  login_btn wd && truthy (login_user wd) && truthy (login_pass wd)
  && (login (login_user wd) (login_pass wd) s).1.1.

(** What one run does, by kind of interaction: how it ends, the session
    state it leaves and the completion calls it adds. [w] is the world
    before the run. *)
Inductive run_spec (secrets : gmap string string)
    (completion : ChatOpenAI -> nat -> list lc_message -> py_result string)
    (clock : nat -> string) (wd : widgets) (w : world)
  : unit + control -> world -> Prop :=
| run_anonymous (w' : world) :
    logged_in (session w) = false ->
    login_accepted wd (session w) = false ->
    session w' = session w ->
    completion_calls (trace w') = completion_calls (trace w) ->
    graph_cache w' = graph_cache w ->
    run_spec secrets completion clock wd w (inl ()) w'
| run_signup (w' : world) :
    logged_in (session w) = false ->
    login_accepted wd (session w) = false ->
    signup_btn wd = true ->
    truthy (signup_user wd) = true ->
    truthy (signup_pass wd) = true ->
    signup_pass wd = signup_pass_confirm wd ->
    session w' = (signup (clock (clock_reads w)) (signup_user wd) (signup_pass wd)
                         (session w)).2 ->
    completion_calls (trace w') = completion_calls (trace w) ->
    graph_cache w' = graph_cache w ->
    run_spec secrets completion clock wd w (inl ()) w'
| run_login (w' : world) :
    logged_in (session w) = false ->
    login_accepted wd (session w) = true ->
    session w' = ensure_history (login (login_user wd) (login_pass wd) (session w)).2 ->
    completion_calls (trace w') = completion_calls (trace w) ->
    graph_cache w' = graph_cache w ->
    run_spec secrets completion clock wd w (inl ()) w'
| run_logged_out (w' : world) :
    logged_in (session w) = true ->
    logout_btn wd = true ->
    session w' = logout (session w) ->
    completion_calls (trace w') = completion_calls (trace w) ->
    graph_cache w' = graph_cache w ->
    run_spec secrets completion clock wd w (inl ()) w'
| run_cleared (w' : world) :
    logged_in (session w) = true ->
    logout_btn wd = false ->
    clear_btn wd = true ->
    session w' = ensure_history (set_history (username (session w)) [] (session w)) ->
    completion_calls (trace w') = completion_calls (trace w) ->
    graph_cache w' = graph_cache w ->
    run_spec secrets completion clock wd w (inl ()) w'
| run_viewed (w' : world) :
    logged_in (session w) = true ->
    logout_btn wd = false ->
    clear_btn wd = false ->
    (forall prompt, ~ submits wd prompt) ->
    session w' = ensure_history (session w) ->
    completion_calls (trace w') = completion_calls (trace w) ->
    graph_cache w' = graph_cache w ->
    run_spec secrets completion clock wd w (inl ()) w'
| run_turn_stopped (w' : world) (prompt : string) :
    logged_in (session w) = true ->
    submits wd prompt ->
    graph_for secrets w = None ->
    session w' = append_history (username (session w)) (user_entry clock w prompt)
                                (ensure_history (session w)) ->
    completion_calls (trace w') = completion_calls (trace w) ->
    graph_cache w' = None ->
    run_spec secrets completion clock wd w (inr Stop) w'
| run_turn_raised (w' : world) (prompt : string) (app : compiled_graph) (e : string) :
    logged_in (session w) = true ->
    submits wd prompt ->
    graph_for secrets w = Some app ->
    completion (node_llm app) (length (completion_calls (trace w)))
               (turn_payload clock app (username (session w)) prompt w) = Raised e ->
    session w' = append_history (username (session w)) (user_entry clock w prompt)
                                (ensure_history (session w)) ->
    completion_calls (trace w')
      = completion_calls (trace w)
        ++ [turn_payload clock app (username (session w)) prompt w] ->
    graph_cache w'
      = Some {| node_llm := node_llm app;
                memory := <[username (session w) :=
                              turn_payload clock app (username (session w)) prompt w]>
                            (memory app) |} ->
    run_spec secrets completion clock wd w (inl ()) w'
| run_turn_returned (w' : world) (prompt : string) (app : compiled_graph) (r : string) :
    logged_in (session w) = true ->
    submits wd prompt ->
    graph_for secrets w = Some app ->
    completion (node_llm app) (length (completion_calls (trace w)))
               (turn_payload clock app (username (session w)) prompt w) = Returned r ->
    session w' = append_history (username (session w)) (assistant_entry clock w r)
                   (append_history (username (session w)) (user_entry clock w prompt)
                                   (ensure_history (session w))) ->
    completion_calls (trace w')
      = completion_calls (trace w)
        ++ [turn_payload clock app (username (session w)) prompt w] ->
    graph_cache w'
      = Some {| node_llm := node_llm app;
                memory := <[username (session w) :=
                              turn_payload clock app (username (session w)) prompt w
                              ++ [AIMessage r]]>
                            (memory app) |} ->
    run_spec secrets completion clock wd w (inl ()) w'.

(** The messages the checkpointer of the cached graph holds for thread
    [k]; none when no graph is cached or the thread is unknown. *)
Definition thread_messages (w : world) (k : option string) : list lc_message :=
  match graph_cache w with
  | Some app => default [] (memory app !! k)
  | None => []
  end.

(** ** A concrete session, for examples *)

Module Demo.

Definition secrets : gmap string string := {[ "OPENAI_API_KEY" := "sk-test" ]}.

Definition no_secrets : gmap string string := ∅.

(** A model that answers the [n]-th call with ["reply n"]. *)
Definition completion (llm : ChatOpenAI) (n : nat) (payload : list lc_message)
  : py_result string :=
  Returned ("reply " +:+ pretty n).

(** A model whose every call raises. *)
Definition unreachable (llm : ChatOpenAI) (n : nat) (payload : list lc_message)
  : py_result string :=
  Raised "Connection error.".

Definition clock (n : nat) : string := "2024-01-01T00:00:0" +:+ pretty n.

(** The process right after start: fresh session, empty caches. *)
Definition fresh : world :=
  {| session := initial_session; llm_cache := None; graph_cache := None;
     clock_reads := 0; trace := [] |}.

(** A run in which nothing is pressed or typed. *)
Definition idle : widgets :=
  {| login_user := ""; login_pass := ""; login_btn := false;
     signup_user := ""; signup_pass := ""; signup_pass_confirm := "";
     signup_btn := false; logout_btn := false; clear_btn := false;
     chat_input := None |}.

Definition press_signup (uname pwd confirm : string) : widgets :=
  {| login_user := ""; login_pass := ""; login_btn := false;
     signup_user := uname; signup_pass := pwd; signup_pass_confirm := confirm;
     signup_btn := true; logout_btn := false; clear_btn := false;
     chat_input := None |}.

Definition press_login (uname pwd : string) : widgets :=
  {| login_user := uname; login_pass := pwd; login_btn := true;
     signup_user := ""; signup_pass := ""; signup_pass_confirm := "";
     signup_btn := false; logout_btn := false; clear_btn := false;
     chat_input := None |}.

Definition press_logout : widgets :=
  {| login_user := ""; login_pass := ""; login_btn := false;
     signup_user := ""; signup_pass := ""; signup_pass_confirm := "";
     signup_btn := false; logout_btn := true; clear_btn := false;
     chat_input := None |}.

Definition press_clear : widgets :=
  {| login_user := ""; login_pass := ""; login_btn := false;
     signup_user := ""; signup_pass := ""; signup_pass_confirm := "";
     signup_btn := false; logout_btn := false; clear_btn := true;
     chat_input := None |}.

Definition say (prompt : string) : widgets :=
  {| login_user := ""; login_pass := ""; login_btn := false;
     signup_user := ""; signup_pass := ""; signup_pass_confirm := "";
     signup_btn := false; logout_btn := false; clear_btn := false;
     chat_input := Some prompt |}.

(** The world after a list of runs, oldest first. *)
Definition after (sec : gmap string string)
    (llm : ChatOpenAI -> nat -> list lc_message -> py_result string)
    (runs : list widgets) (w : world) : world :=
  foldl (fun w wd => (run_script sec llm clock wd w).2) w runs.

(** alice and bob have signed up. *)
Definition two_users : world :=
  after secrets completion
    [press_signup "alice" "secret1" "secret1"; press_signup "bob" "hunter22" "hunter22"]
    fresh.

(** alice has logged in; nothing said yet. *)
Definition alice_in : world :=
  after secrets completion [press_login "alice" "secret1"] two_users.

(** alice has had one exchange. *)
Definition alice_one_turn : world :=
  after secrets completion [say "hello"] alice_in.

End Demo.

(** * Properties *)

(** ** Auxiliary facts *)

Lemma truthy_nonempty (s : string) : truthy s = true <-> s <> "".
Proof. destruct s; simpl; split; congruence. Qed.

Lemma login_cases (uname pwd : string) (s : session_state) :
  (users s !! uname = None /\
   login uname pwd s = ((false, "Username not found"), s))
  \/ (exists u, users s !! uname = Some u /\ password u <> pwd /\
      login uname pwd s = ((false, "Incorrect password"), s))
  \/ (exists u, users s !! uname = Some u /\ password u = pwd /\
      login uname pwd s =
        ((true, "Logged in successfully"),
         {| logged_in := true; username := Some uname;
            users := users s; chat_histories := chat_histories s |})).
Proof.
  unfold login. destruct (users s !! uname) as [u|] eqn:Hu.
  - destruct (String.eqb_spec (password u) pwd) as [Heq|Hne]; simpl.
    + right. right. exists u. auto.
    + right. left. exists u. auto.
  - left. auto.
Qed.

Lemma login_success_state (uname pwd : string) (s : session_state) :
  (login uname pwd s).1.1 = true ->
  (login uname pwd s).2 =
    {| logged_in := true; username := Some uname;
       users := users s; chat_histories := chat_histories s |}.
Proof.
  destruct (login_cases uname pwd s)
    as [[_ E] | [(u & _ & _ & E) | (u & _ & _ & E)]]; rewrite E; simpl; congruence.
Qed.

Lemma signup_keeps_login (now uname pwd : string) (s : session_state) :
  logged_in (signup now uname pwd s).2 = logged_in s
  /\ username (signup now uname pwd s).2 = username s.
Proof.
  unfold signup. destruct (users s !! uname); [done |].
  destruct (String.length pwd <? 6)%nat; [done |].
  destruct (negb (truthy uname) || negb (truthy pwd)); done.
Qed.

Lemma completion_calls_app (t1 t2 : list event) :
  completion_calls (t1 ++ t2) = completion_calls t1 ++ completion_calls t2.
Proof.
  induction t1 as [|e t1 IH]; [reflexivity |].
  destruct e; simpl; rewrite IH; reflexivity.
Qed.

Lemma completion_calls_page (s : session_state) : completion_calls (page_for s) = [].
Proof.
  unfold page_for. simpl.
  induction (transcript s (username s)) as [|m l IH]; [reflexivity | exact IH].
Qed.

Lemma show_history (l : list chat_entry) (w : world) :
  foldr (fun m k => bind (emit (st_chat_message (role m) (content m))) (fun _ => k))
        (ret ()) l w
  = (inl (),
     {| session := session w; llm_cache := llm_cache w;
        graph_cache := graph_cache w; clock_reads := clock_reads w;
        trace := trace w ++ map (fun m => st_chat_message (role m) (content m)) l |}).
Proof.
  revert w. induction l as [|m l IH]; intros [s lc gc n t]; simpl.
  - unfold ret. by rewrite app_nil_r.
  - unfold bind, emit at 1. simpl. rewrite IH. simpl.
    by rewrite <- app_assoc.
Qed.

Lemma transcript_ensure_history (s : session_state) (k : option string) :
  transcript (ensure_history s) k = transcript s k.
Proof.
  unfold ensure_history. destruct (chat_histories s !! username s) eqn:E; [done |].
  unfold transcript, set_history. simpl.
  destruct (decide (username s = k)) as [<-|Hne].
  - by rewrite lookup_insert_eq, E.
  - by rewrite lookup_insert_ne.
Qed.

Lemma transcript_append_same (k : option string) (e : chat_entry) (s : session_state) :
  transcript (append_history k e s) k = transcript s k ++ [e].
Proof.
  unfold append_history, set_history, transcript at 1. simpl.
  by rewrite lookup_insert_eq.
Qed.

Lemma histories_append_other (k k' : option string) (e : chat_entry) (s : session_state) :
  k' <> k ->
  chat_histories (append_history k e s) !! k' = chat_histories s !! k'.
Proof.
  intros Hne. unfold append_history, set_history. simpl.
  by rewrite lookup_insert_ne.
Qed.

Lemma ensure_history_frame (s : session_state) :
  logged_in (ensure_history s) = logged_in s
  /\ username (ensure_history s) = username s
  /\ users (ensure_history s) = users s
  /\ (forall k, k <> username s ->
      chat_histories (ensure_history s) !! k = chat_histories s !! k).
Proof.
  unfold ensure_history. destruct (chat_histories s !! username s); simpl; [done |].
  repeat split. intros k Hk. by apply lookup_insert_ne.
Qed.

Lemma turn_payload_entered (clock : nat -> string) (app : compiled_graph)
    (prompt : string) (w : world) :
  turn_payload clock app (username (session w)) prompt (entered w)
  = turn_payload clock app (username (session w)) prompt w.
Proof.
  unfold turn_payload, user_entry, entered. simpl.
  by rewrite transcript_ensure_history.
Qed.

Lemma calls_entered (w : world) :
  completion_calls (trace (entered w)) = completion_calls (trace w).
Proof.
  unfold entered. simpl.
  by rewrite completion_calls_app, completion_calls_page, app_nil_r.
Qed.

Lemma graph_for_entered (secrets : gmap string string) (w : world) :
  graph_for secrets (entered w) = graph_for secrets w.
Proof. reflexivity. Qed.

Lemma graph_for_no_key (secrets : gmap string string) (w : world) :
  secrets !! "OPENAI_API_KEY" = None ->
  llm_cache w = None ->
  graph_cache w = None ->
  graph_for secrets w = None.
Proof.
  intros Hkey Hlc Hgc. unfold graph_for, client_for.
  by rewrite Hgc, Hlc, Hkey.
Qed.

(** ** One chat turn *)

Section ChatTurn.

Variable secrets : gmap string string.
Variable completion : ChatOpenAI -> nat -> list lc_message -> py_result string.
Variable clock : nat -> string.

Ltac open_turn :=
  unfold chat_turn, create_graph, get_llm, invoke, chatbot_node,
    save_checkpoint, show_error, bind, datetime_now, get_session,
    put_session, emit, ret, raise; simpl;
  unfold bind, emit, ret, raise; simpl.

(** A turn whose completion call returns [r]. *)
Lemma chat_turn_returned (k : option string) (prompt r : string)
    (w : world) (app : compiled_graph) :
  graph_for secrets w = Some app ->
  completion (node_llm app) (length (completion_calls (trace w)))
             (turn_payload clock app k prompt w) = Returned r ->
  exists w',
    chat_turn secrets completion clock k prompt w = (inl (), w')
    /\ session w' =
         append_history k (assistant_entry clock w r)
           (append_history k (user_entry clock w prompt) (session w))
    /\ trace w' = trace w ++ [st_chat_message user prompt;
                              llm_invoke (turn_payload clock app k prompt w);
                              st_chat_message assistant r]
    /\ graph_cache w' =
         Some {| node_llm := node_llm app;
                 memory := <[k := turn_payload clock app k prompt w ++ [AIMessage r]]>
                             (memory app) |}.
Proof.
  intros Happ Hc. destruct w as [s lc gc n t].
  unfold turn_payload, user_entry, assistant_entry in *. simpl in *.
  unfold graph_for, client_for in Happ. simpl in Happ.
  destruct gc as [g|]; [| destruct lc as [l|];
    [| destruct (secrets !! "OPENAI_API_KEY") as [key|] eqn:Hkey]];
    simpl in Happ; simplify_eq; open_turn; try rewrite Hkey; simpl;
    rewrite completion_calls_app, app_nil_r, transcript_append_same;
    simpl in *; rewrite Hc; simpl; rewrite last_snoc; simpl;
    (eexists; split; [reflexivity |]); simpl;
    rewrite <- !app_assoc; auto.
Qed.

(** A turn whose completion call raises [e]. *)
Lemma chat_turn_raised (k : option string) (prompt e : string)
    (w : world) (app : compiled_graph) :
  graph_for secrets w = Some app ->
  completion (node_llm app) (length (completion_calls (trace w)))
             (turn_payload clock app k prompt w) = Raised e ->
  exists w',
    chat_turn secrets completion clock k prompt w = (inl (), w')
    /\ session w' = append_history k (user_entry clock w prompt) (session w)
    /\ trace w' = trace w ++ [st_chat_message user prompt;
                              llm_invoke (turn_payload clock app k prompt w);
                              st_error ("Error: " +:+ e);
                              st_info "Please check your API configuration"]
    /\ graph_cache w' =
         Some {| node_llm := node_llm app;
                 memory := <[k := turn_payload clock app k prompt w]> (memory app) |}.
Proof.
  intros Happ Hc. destruct w as [s lc gc n t].
  unfold turn_payload, user_entry in *. simpl in *.
  unfold graph_for, client_for in Happ. simpl in Happ.
  destruct gc as [g|]; [| destruct lc as [l|];
    [| destruct (secrets !! "OPENAI_API_KEY") as [key|] eqn:Hkey]];
    simpl in Happ; simplify_eq; open_turn; try rewrite Hkey; simpl;
    rewrite completion_calls_app, app_nil_r, transcript_append_same;
    simpl in *; rewrite Hc; simpl;
    (eexists; split; [reflexivity |]); simpl;
    rewrite <- !app_assoc; auto.
Qed.

(** A turn when no graph is cached and no client can be built. *)
Lemma chat_turn_no_key (k : option string) (prompt : string) (w : world) :
  graph_for secrets w = None ->
  exists w',
    chat_turn secrets completion clock k prompt w = (inr Stop, w')
    /\ session w' = append_history k (user_entry clock w prompt) (session w)
    /\ trace w' = trace w ++ [st_chat_message user prompt;
                              st_error "API key not found in secrets. Please add OPENAI_API_KEY to your .streamlit/secrets.toml file"]
    /\ graph_cache w' = None /\ llm_cache w' = None.
Proof.
  intros Happ. destruct w as [s lc gc n t].
  unfold user_entry. simpl in *.
  unfold graph_for, client_for in Happ. simpl in Happ.
  destruct gc as [g|]; [done |]. destruct lc as [l|]; [done |].
  destruct (secrets !! "OPENAI_API_KEY") as [key|] eqn:Hkey; [done |].
  open_turn. rewrite Hkey. simpl.
  eexists; split; [reflexivity |]. simpl.
  rewrite <- !app_assoc. auto.
Qed.

End ChatTurn.

(** ** One pass of the script *)

Section Passes.

Variable secrets : gmap string string.
Variable completion : ChatOpenAI -> nat -> list lc_message -> py_result string.
Variable clock : nat -> string.

Ltac open_main :=
  unfold main, sidebar, account_panel, login_tab, signup_tab, chat_interface,
    call_login, call_signup, call_logout, when, bind, get_session,
    put_session, emit, ret, raise; simpl.

(** A pass of a logged-in session in which neither button is pressed:
    the page is shown, then the chat input is looked at. *)
Lemma main_logged_in (wd : widgets) (w : world) :
  logged_in (session w) = true ->
  logout_btn wd = false ->
  clear_btn wd = false ->
  main secrets completion clock wd w =
    match chat_input wd with
    | Some prompt =>
      when (truthy prompt)
           (chat_turn secrets completion clock (username (session w)) prompt)
    | None => ret ()
    end (entered w).
Proof.
  intros Hin Hout Hclear.
  destruct w as [[li un us ch] lc gc n t], wd; simpl in *; subst.
  open_main. unfold entered, ensure_history, page_for, transcript. simpl.
  destruct (ch !! un) as [h|] eqn:Hh; simpl.
  - rewrite show_history. simpl. unfold transcript. simpl. rewrite Hh. simpl.
    rewrite <- !app_assoc. reflexivity.
  - rewrite show_history. simpl. unfold transcript. simpl.
    rewrite lookup_insert_eq. simpl. rewrite <- !app_assoc. reflexivity.
Qed.

(** A pass of a logged-in session with "Logout" pressed. *)
Lemma main_logout (wd : widgets) (w : world) :
  logged_in (session w) = true ->
  logout_btn wd = true ->
  main secrets completion clock wd w =
    (inr Rerun,
     {| session := logout (session w); llm_cache := llm_cache w;
        graph_cache := graph_cache w; clock_reads := clock_reads w;
        trace := trace w ++
          [st_success ("Logged in as: **" +:+ py_str (username (session w)) +:+ "**");
           called_logout] |}).
Proof.
  intros Hin Hout.
  destruct w as [[li un us ch] lc gc n t], wd; simpl in *; subst.
  open_main. rewrite <- !app_assoc. reflexivity.
Qed.

(** A pass of a logged-in session with "Clear Chat History" pressed. *)
Lemma main_clear (wd : widgets) (w : world) :
  logged_in (session w) = true ->
  logout_btn wd = false ->
  clear_btn wd = true ->
  main secrets completion clock wd w =
    (inr Rerun,
     {| session := set_history (username (session w)) [] (session w);
        llm_cache := llm_cache w;
        graph_cache := graph_cache w; clock_reads := clock_reads w;
        trace := trace w ++
          [st_success ("Logged in as: **" +:+ py_str (username (session w)) +:+ "**");
           st_info ("💬 Total messages: "
                    +:+ pretty (length (transcript (session w) (username (session w)))));
           st_success "Chat history cleared!"] |}).
Proof.
  intros Hin Hout Hclear.
  destruct w as [[li un us ch] lc gc n t], wd; simpl in *; subst.
  open_main. rewrite <- !app_assoc. reflexivity.
Qed.

(** A pass of an anonymous session in which no button is pressed: only
    the invitation to log in is shown. *)
Lemma main_anonymous_idle (wd : widgets) (w : world) :
  logged_in (session w) = false ->
  login_btn wd = false ->
  signup_btn wd = false ->
  main secrets completion clock wd w =
    (inl (),
     {| session := session w; llm_cache := llm_cache w;
        graph_cache := graph_cache w; clock_reads := clock_reads w;
        trace := trace w ++ [st_info "👈 Please login or sign up to start chatting"] |}).
Proof.
  intros Hin Hl Hs.
  destruct w as [[li un us ch] lc gc n t], wd; simpl in *; subst.
  open_main. reflexivity.
Qed.

(** The pass that follows [st.rerun()] in a logged-in session. *)
Lemma main_released_logged_in (wd : widgets) (w : world) :
  logged_in (session w) = true ->
  main secrets completion clock (released wd) w = (inl (), entered w).
Proof.
  intros Hin. by rewrite main_logged_in.
Qed.

End Passes.

Section AnonymousPass.

Variable secrets : gmap string string.
Variable completion : ChatOpenAI -> nat -> list lc_message -> py_result string.
Variable clock : nat -> string.

Ltac open_tabs :=
  unfold main, sidebar, account_panel, login_tab, signup_tab, chat_interface,
    call_login, call_signup, call_logout, when, bind, get_session,
    put_session, emit, ret, raise; simpl.

(** The sign-up tab never leaves the run and never logs anyone in. *)
Lemma signup_tab_anonymous (wd : widgets) (w : world) :
  exists w',
    signup_tab clock wd w = (inl (), w')
    /\ logged_in (session w') = logged_in (session w)
    /\ llm_cache w' = llm_cache w /\ graph_cache w' = graph_cache w
    /\ completion_calls (trace w') = completion_calls (trace w).
Proof.
  destruct w as [s lc gc n t], wd; simpl in *.
  open_tabs.
  destruct signup_btn0; simpl; [| eexists; split; [reflexivity | done]].
  destruct (negb (truthy signup_user0) || negb (truthy signup_pass0)); simpl.
  { eexists; split; [reflexivity |]. simpl.
    by rewrite completion_calls_app, app_nil_r. }
  destruct (negb (String.eqb signup_pass0 signup_pass_confirm0)); simpl.
  { eexists; split; [reflexivity |]. simpl.
    by rewrite completion_calls_app, app_nil_r. }
  pose proof (signup_keeps_login (clock n) signup_user0 signup_pass0 s) as [Hl _].
  destruct (signup (clock n) signup_user0 signup_pass0 s) as [[ok msg] s'].
  simpl in *. destruct ok; simpl;
    (eexists; split; [reflexivity |]); simpl;
    rewrite !completion_calls_app, !app_nil_r; done.
Qed.

(** A pass of an anonymous session: either "Login" was pressed and the
    login succeeded, and the script reruns right away; or the pass runs
    to its end with the session still anonymous. No completion call is
    made and no cache is touched. *)
Lemma main_anonymous (wd : widgets) (w : world) :
  logged_in (session w) = false ->
  (exists w',
     login_btn wd = true
     /\ (login (login_user wd) (login_pass wd) (session w)).1.1 = true
     /\ main secrets completion clock wd w = (inr Rerun, w')
     /\ session w' = (login (login_user wd) (login_pass wd) (session w)).2
     /\ llm_cache w' = llm_cache w /\ graph_cache w' = graph_cache w
     /\ completion_calls (trace w') = completion_calls (trace w))
  \/ (exists w',
     main secrets completion clock wd w = (inl (), w')
     /\ logged_in (session w') = false
     /\ llm_cache w' = llm_cache w /\ graph_cache w' = graph_cache w
     /\ completion_calls (trace w') = completion_calls (trace w)).
Proof.
  intros Hin.
  assert (Hmain : main secrets completion clock wd w =
    match login_tab wd w with
    | (inl _, w1) =>
      match signup_tab clock wd w1 with
      | (inl _, w2) =>
        if logged_in (session w2)
        then chat_interface secrets completion clock wd w2
        else emit (st_info "👈 Please login or sign up to start chatting") w2
      | (inr x, w2) => (inr x, w2)
      end
    | (inr x, w1) => (inr x, w1)
    end).
  { unfold main, sidebar, bind, get_session. rewrite Hin. simpl.
    destruct (login_tab wd w) as [[[]|x] w1]; [| reflexivity].
    destruct (signup_tab clock wd w1) as [[[]|x] w2]; [| reflexivity].
    destruct (logged_in (session w2)); reflexivity. }
  rewrite Hmain. clear Hmain.
  assert (Hlogin :
    (exists w1, login_btn wd = true
       /\ (login (login_user wd) (login_pass wd) (session w)).1.1 = true
       /\ login_tab wd w = (inr Rerun, w1)
       /\ session w1 = (login (login_user wd) (login_pass wd) (session w)).2
       /\ llm_cache w1 = llm_cache w /\ graph_cache w1 = graph_cache w
       /\ completion_calls (trace w1) = completion_calls (trace w))
    \/ (exists w1, login_tab wd w = (inl (), w1)
       /\ session w1 = session w
       /\ llm_cache w1 = llm_cache w /\ graph_cache w1 = graph_cache w
       /\ completion_calls (trace w1) = completion_calls (trace w))).
  { destruct w as [s lc gc n t], wd; simpl in *. open_tabs.
    destruct login_btn0; simpl; [| right; eexists; split; [reflexivity | done]].
    destruct (truthy login_user0 && truthy login_pass0); simpl.
    - destruct (login_cases login_user0 login_pass0 s)
        as [[_ E] | [(u & _ & _ & E) | (u & _ & _ & E)]]; rewrite E; simpl.
      + right. eexists. split; [reflexivity |]. simpl.
        by rewrite !completion_calls_app, !app_nil_r.
      + right. eexists. split; [reflexivity |]. simpl.
        by rewrite !completion_calls_app, !app_nil_r.
      + left. eexists. repeat (split; [reflexivity |]). simpl.
        by rewrite !completion_calls_app, !app_nil_r.
    - right. eexists. split; [reflexivity |]. simpl.
      by rewrite !completion_calls_app, !app_nil_r. }
  destruct Hlogin as [(w1 & Hb & Hok & E & Hs & Hlc & Hgc & Hcalls)
                     | (w1 & E & Hs & Hlc & Hgc & Hcalls)]; rewrite E.
  - left. exists w1. done.
  - right.
    destruct (signup_tab_anonymous wd w1) as (w2 & E2 & Hl2 & Hlc2 & Hgc2 & Hc2).
    rewrite E2.
    rewrite Hl2, Hs, Hin.
    eexists. split; [reflexivity |]. unfold emit. simpl.
    rewrite completion_calls_app, app_nil_r.
    rewrite Hl2, Hs, Hin, Hlc2, Hgc2, Hc2. done.
Qed.

End AnonymousPass.

(** ** Whole runs *)

(** A rerun pass never reruns or stops, makes no call and touches no
    cache; it changes the session at most by creating the missing history
    of the logged-in user. *)
Lemma main_released
    (secrets : gmap string string)
    (completion : ChatOpenAI -> nat -> list lc_message -> py_result string)
    (clock : nat -> string) (wd : widgets) (w : world) :
  exists w',
    main secrets completion clock (released wd) w = (inl (), w')
    /\ session w' = (if logged_in (session w) then ensure_history (session w)
                     else session w)
    /\ llm_cache w' = llm_cache w /\ graph_cache w' = graph_cache w
    /\ completion_calls (trace w') = completion_calls (trace w).
Proof.
  destruct (logged_in (session w)) eqn:Hin.
  - rewrite main_released_logged_in by assumption.
    eexists. split; [reflexivity |]. repeat split. apply calls_entered.
  - rewrite main_anonymous_idle by done.
    eexists. split; [reflexivity |]. simpl. repeat split.
    by rewrite completion_calls_app, app_nil_r.
Qed.

(** The run in which a logged-in user presses "Logout". *)
Lemma run_logout
    (secrets : gmap string string)
    (completion : ChatOpenAI -> nat -> list lc_message -> py_result string)
    (clock : nat -> string) (wd : widgets) (w : world) :
  logged_in (session w) = true ->
  logout_btn wd = true ->
  exists w1,
    run_script secrets completion clock wd w = (inl (), w1)
    /\ session w1 = logout (session w).
Proof.
  intros Hin Hout. unfold run_script.
  rewrite main_logout by assumption.
  rewrite main_anonymous_idle by done.
  eexists. split; reflexivity.
Qed.

(** X16. What a turn of the logged-in user [u] does when the completion call
    returns [r]: one call, on what the checkpointer holds for the thread
    followed by the whole history including the new input, and the
    history grows by the input and by the reply. *)
Lemma turn_returned
    (secrets : gmap string string)
    (completion : ChatOpenAI -> nat -> list lc_message -> py_result string)
    (clock : nat -> string) (wd : widgets) (w : world)
    (u prompt r : string) (app : compiled_graph) :
  logged_in (session w) = true ->
  username (session w) = Some u ->
  submits wd prompt ->
  graph_for secrets w = Some app ->
  completion (node_llm app) (length (completion_calls (trace w)))
             (turn_payload clock app (Some u) prompt w) = Returned r ->
  exists w',
    run_script secrets completion clock wd w = (inl (), w')
    /\ trace w' = trace w ++ page_for (session w)
                  ++ [st_chat_message user prompt;
                      llm_invoke (turn_payload clock app (Some u) prompt w);
                      st_chat_message assistant r]
    /\ transcript (session w') (Some u)
       = transcript (session w) (Some u)
         ++ [user_entry clock w prompt; assistant_entry clock w r]
    /\ (forall k, k <> Some u ->
        chat_histories (session w') !! k = chat_histories (session w) !! k)
    /\ users (session w') = users (session w)
    /\ logged_in (session w') = logged_in (session w)
    /\ username (session w') = username (session w)
    /\ graph_cache w' =
         Some {| node_llm := node_llm app;
                 memory := <[Some u := turn_payload clock app (Some u) prompt w
                                       ++ [AIMessage r]]> (memory app) |}.
Proof.
  intros Hin Hu (Hout & Hclear & Hinput & Hprompt) Happ Hc.
  unfold run_script. rewrite main_logged_in by assumption.
  rewrite Hinput. apply truthy_nonempty in Hprompt. rewrite Hprompt.
  unfold when.
  destruct (chat_turn_returned secrets completion clock (username (session w))
              prompt r (entered w) app) as (w' & Hrun & Hs & Ht & Hg).
  { exact Happ. }
  { rewrite calls_entered, turn_payload_entered, Hu. exact Hc. }
  rewrite Hrun. exists w'. split; [reflexivity |].
  rewrite turn_payload_entered in Ht, Hg. rewrite Hu in Hs, Ht, Hg.
  destruct (ensure_history_frame (session w)) as (Hl & Hn & Hus & Hother).
  rewrite Hs. repeat split.
  - rewrite Ht. unfold entered. cbn [trace]. by rewrite <- app_assoc.
  - rewrite !transcript_append_same. simpl.
    rewrite transcript_ensure_history, <- app_assoc. reflexivity.
  - intros k Hk. rewrite !histories_append_other by assumption.
    simpl. apply Hother. congruence.
  - simpl. exact Hus.
  - simpl. exact Hl.
  - simpl. exact Hn.
  - exact Hg.
Qed.

(** The shape of a run that goes through although no client can be
    built: it was not a chat submission of a logged-in user. *)
Lemma goes_through (clock : nat -> string) (wd : widgets) (w w' : world) :
  (logged_in (session w) = true -> forall prompt, ~ submits wd prompt) ->
  completion_calls (trace w') = completion_calls (trace w) ->
  llm_cache w' = None ->
  graph_cache w' = None ->
  ((inl () : unit + control) = inr Stop <->
     logged_in (session w) = true /\ exists prompt, submits wd prompt)
  /\ (forall prompt,
        logged_in (session w) = true -> submits wd prompt ->
        trace w' = trace w ++ page_for (session w)
                   ++ [st_chat_message user prompt; st_error api_key_not_found]
        /\ transcript (session w') (username (session w))
           = transcript (session w) (username (session w))
             ++ [user_entry clock w prompt])
  /\ completion_calls (trace w') = completion_calls (trace w)
  /\ llm_cache w' = None
  /\ graph_cache w' = None.
Proof.
  intros Hno Hcalls Hlc Hgc.
  split; [| split; [| by repeat split]].
  - split; [discriminate |].
    intros (Hin & prompt & Hsub). destruct (Hno Hin prompt Hsub).
  - intros prompt Hin Hsub. destruct (Hno Hin prompt Hsub).
Qed.

(** ** Conversation turns *)

(** C1 on the second turn of a user. alice has had one exchange
    (["hello"], ["reply 0"]) and submits ["again"]. The run appends her
    input and, after one completion call, the reply; but the call does not
    carry her history: the checkpointer already holds the first exchange
    for her thread, the graph adds the submitted history to it, and the
    model receives the first exchange twice. *)
Theorem second_turn_payload_repeats_history :
  (run_script Demo.secrets Demo.completion Demo.clock (Demo.say "again")
              Demo.alice_one_turn).1 = inl ()
  /\ transcript (session Demo.alice_one_turn) (Some "alice")
     = [ {| role := user; content := "hello"; timestamp := "2024-01-01T00:00:02" |};
         {| role := assistant; content := "reply 0";
            timestamp := "2024-01-01T00:00:03" |} ]
  /\ transcript (session (run_script Demo.secrets Demo.completion Demo.clock
                            (Demo.say "again") Demo.alice_one_turn).2) (Some "alice")
     = transcript (session Demo.alice_one_turn) (Some "alice")
       ++ [ {| role := user; content := "again"; timestamp := "2024-01-01T00:00:04" |};
            {| role := assistant; content := "reply 1";
               timestamp := "2024-01-01T00:00:05" |} ]
  /\ prepare_messages
       (transcript (session Demo.alice_one_turn) (Some "alice")
        ++ [ {| role := user; content := "again";
                timestamp := "2024-01-01T00:00:04" |} ])
     = [HumanMessage "hello"; AIMessage "reply 0"; HumanMessage "again"]
  /\ completion_calls
       (trace (run_script Demo.secrets Demo.completion Demo.clock
                 (Demo.say "again") Demo.alice_one_turn).2)
     = completion_calls (trace Demo.alice_one_turn)
       ++ [[HumanMessage "hello"; AIMessage "reply 0";
            HumanMessage "hello"; AIMessage "reply 0"; HumanMessage "again"]].
Proof.
  repeat split; vm_compute; reflexivity.
Qed.

(** The same defect after "Clear Chat History": the history on screen is
    empty, yet the next call still carries the cleared exchange. *)
Example cleared_history_is_still_sent :
  transcript (session (Demo.after Demo.secrets Demo.completion [Demo.press_clear]
                         Demo.alice_one_turn)) (Some "alice") = []
  /\ completion_calls
       (trace (Demo.after Demo.secrets Demo.completion
                 [Demo.press_clear; Demo.say "again"] Demo.alice_one_turn))
     = [[HumanMessage "hello"];
        [HumanMessage "hello"; AIMessage "reply 0"; HumanMessage "again"]].
Proof.
  split; vm_compute; reflexivity.
Qed.

(** The first turn of a thread carries exactly the history. *)
Example first_turn_payload_is_history :
  completion_calls (trace Demo.alice_one_turn) = [[HumanMessage "hello"]].
Proof. vm_compute. reflexivity. Qed.

(** C2. When the completion call of a turn raises, the run ends normally
    having shown "Error: ..." with the exception's text after the single
    call it made; the user's message is the one entry added to the user's
    history, no assistant entry is added, and the histories of other
    users, the credential store, [logged_in] and the current username are
    as before. *)
Theorem failed_completion_keeps_user_message
    (secrets : gmap string string)
    (completion : ChatOpenAI -> nat -> list lc_message -> py_result string)
    (clock : nat -> string) (wd : widgets) (w : world)
    (u prompt e : string) (app : compiled_graph) :
  logged_in (session w) = true ->
  username (session w) = Some u ->
  submits wd prompt ->
  graph_for secrets w = Some app ->
  completion (node_llm app) (length (completion_calls (trace w)))
             (turn_payload clock app (Some u) prompt w) = Raised e ->
  exists w',
    run_script secrets completion clock wd w = (inl (), w')
    /\ trace w' = trace w ++ page_for (session w)
                  ++ [st_chat_message user prompt;
                      llm_invoke (turn_payload clock app (Some u) prompt w);
                      st_error ("Error: " +:+ e);
                      st_info "Please check your API configuration"]
    /\ transcript (session w') (Some u)
       = transcript (session w) (Some u) ++ [user_entry clock w prompt]
    /\ (forall k, k <> Some u ->
        chat_histories (session w') !! k = chat_histories (session w) !! k)
    /\ users (session w') = users (session w)
    /\ logged_in (session w') = logged_in (session w)
    /\ username (session w') = username (session w).
Proof.
  intros Hin Hu (Hout & Hclear & Hinput & Hprompt) Happ Hc.
  unfold run_script. rewrite main_logged_in by assumption.
  rewrite Hinput. apply truthy_nonempty in Hprompt. rewrite Hprompt.
  unfold when.
  destruct (chat_turn_raised secrets completion clock (username (session w))
              prompt e (entered w) app) as (w' & Hrun & Hs & Ht & Hg).
  { exact Happ. }
  { rewrite calls_entered, turn_payload_entered, Hu. exact Hc. }
  rewrite Hrun. exists w'. split; [reflexivity |].
  rewrite turn_payload_entered in Ht, Hg. rewrite Hu in Hs, Ht, Hg.
  destruct (ensure_history_frame (session w)) as (Hl & Hn & Hus & Hother).
  rewrite Hs. repeat split.
  - rewrite Ht. unfold entered. cbn [trace]. by rewrite <- app_assoc.
  - rewrite transcript_append_same. simpl.
    rewrite transcript_ensure_history. reflexivity.
  - intros k Hk. rewrite histories_append_other by assumption.
    simpl. apply Hother. congruence.
  - simpl. exact Hus.
  - simpl. exact Hl.
  - simpl. exact Hn.
Qed.

Lemma failed_completion_keeps_user_message_witness :
  logged_in (session Demo.alice_in) = true
  /\ username (session Demo.alice_in) = Some "alice"
  /\ submits (Demo.say "hello") "hello"
  /\ graph_for Demo.secrets Demo.alice_in
     = Some {| node_llm := {| model := "gpt-4o-mini"; temperature := 7 # 10;
                              openai_api_key := "sk-test" |};
               memory := ∅ |}
  /\ exists w',
       run_script Demo.secrets Demo.unreachable Demo.clock (Demo.say "hello")
                  Demo.alice_in = (inl (), w')
       /\ transcript (session w') (Some "alice")
          = transcript (session Demo.alice_in) (Some "alice")
            ++ [user_entry Demo.clock Demo.alice_in "hello"].
Proof.
  assert (H1 : logged_in (session Demo.alice_in) = true) by (vm_compute; reflexivity).
  assert (H2 : username (session Demo.alice_in) = Some "alice")
    by (vm_compute; reflexivity).
  assert (H3 : submits (Demo.say "hello") "hello")
    by (repeat split; discriminate).
  assert (H4 : graph_for Demo.secrets Demo.alice_in
               = Some {| node_llm := {| model := "gpt-4o-mini"; temperature := 7 # 10;
                                        openai_api_key := "sk-test" |};
                         memory := ∅ |}) by (vm_compute; reflexivity).
  repeat (split; [assumption |]).
  destruct (failed_completion_keeps_user_message Demo.secrets Demo.unreachable
              Demo.clock (Demo.say "hello") Demo.alice_in "alice" "hello"
              "Connection error." _ H1 H2 H3 H4 eq_refl)
    as (w' & Hrun & _ & Htr & _).
  exists w'. split; [exact Hrun | exact Htr].
Defined.

(** ** Login and signup *)

(** C3. [login] succeeds exactly when the username is a key of the
    credential store and the stored password equals the supplied one as a
    string. Otherwise it fails: with "Username not found" when the
    username is absent, with "Incorrect password" when the stored password
    differs; a failure leaves the session as it was. On success the session
    is logged in, bound to that username, and the stores are untouched. *)
Theorem login_succeeds_iff (uname pwd : string) (s : session_state) :
  ((login uname pwd s).1.1 = true <->
     exists u, users s !! uname = Some u /\ password u = pwd)
  /\ (users s !! uname = None ->
      login uname pwd s = ((false, "Username not found"), s))
  /\ (forall u, users s !! uname = Some u -> password u <> pwd ->
      login uname pwd s = ((false, "Incorrect password"), s))
  /\ ((login uname pwd s).1.1 = true ->
      login uname pwd s =
        ((true, "Logged in successfully"),
         {| logged_in := true; username := Some uname;
            users := users s; chat_histories := chat_histories s |})).
Proof.
  destruct (login_cases uname pwd s)
    as [[Hn E] | [(u & Hu & Hp & E) | (u & Hu & Hp & E)]]; rewrite E; simpl.
  - repeat split; try congruence.
    intros (u & Hu & _). congruence.
  - repeat split; try congruence.
    intros (u' & Hu' & Hp'). congruence.
  - repeat split; try congruence. eauto.
Qed.

(** The comparison is case-sensitive. *)
Example login_is_case_sensitive :
  (login "alice" "Secret1" (session Demo.two_users)).1
  = (false, "Incorrect password").
Proof. vm_compute. reflexivity. Qed.

Lemma login_succeeds_iff_witness :
  (login "alice" "secret1" (session Demo.two_users)).1.1 = true
  /\ login "alice" "secret1" (session Demo.two_users) =
       ((true, "Logged in successfully"),
        {| logged_in := true; username := Some "alice";
           users := users (session Demo.two_users);
           chat_histories := chat_histories (session Demo.two_users) |}).
Proof.
  assert (H : (login "alice" "secret1" (session Demo.two_users)).1.1 = true)
    by (vm_compute; reflexivity).
  split; [exact H |].
  exact (proj2 (proj2 (proj2
    (login_succeeds_iff "alice" "secret1" (session Demo.two_users)))) H).
Defined.

(** C4. A signup with a non-empty username that is not yet in the
    credential store and a password of at least 6 characters succeeds: it
    stores a user record for the username, gives it an empty chat history,
    touches no other user or history, and leaves [logged_in] and the
    current username as they were. *)
Theorem signup_valid_succeeds (now uname pwd : string) (s : session_state) :
  uname <> "" ->
  users s !! uname = None ->
  6 <= String.length pwd ->
  exists s',
    signup now uname pwd s = ((true, "Account created successfully"), s')
    /\ users s' !! uname = Some {| password := pwd; created_at := now |}
    /\ chat_histories s' !! Some uname = Some []
    /\ (forall other, other <> uname -> users s' !! other = users s !! other)
    /\ (forall k, k <> Some uname -> chat_histories s' !! k = chat_histories s !! k)
    /\ logged_in s' = logged_in s
    /\ username s' = username s.
Proof.
  intros Hname Hfree Hlen. unfold signup. rewrite Hfree.
  destruct (String.length pwd <? 6)%nat eqn:Hshort.
  { apply Nat.ltb_lt in Hshort. lia. }
  assert (Hu : truthy uname = true) by (by apply truthy_nonempty).
  assert (Hp : truthy pwd = true) by (destruct pwd; simpl in *; [lia | done]).
  rewrite Hu, Hp. simpl. eexists. split; [reflexivity |]. simpl.
  repeat split.
  - apply lookup_insert_eq.
  - apply lookup_insert_eq.
  - intros other Hne. by apply lookup_insert_ne.
  - intros k Hne. by apply lookup_insert_ne.
Qed.

Lemma signup_valid_succeeds_witness :
  "carol" <> "" /\ users (session Demo.two_users) !! "carol" = None
  /\ 6 <= String.length "s3cret"
  /\ exists s',
    signup "t" "carol" "s3cret" (session Demo.two_users)
      = ((true, "Account created successfully"), s')
    /\ users s' !! "carol" = Some {| password := "s3cret"; created_at := "t" |}
    /\ chat_histories s' !! Some "carol" = Some []
    /\ (forall other, other <> "carol" ->
        users s' !! other = users (session Demo.two_users) !! other)
    /\ (forall k, k <> Some "carol" ->
        chat_histories s' !! k = chat_histories (session Demo.two_users) !! k)
    /\ logged_in s' = logged_in (session Demo.two_users)
    /\ username s' = username (session Demo.two_users).
Proof.
  assert (H1 : "carol" <> "") by discriminate.
  assert (H2 : users (session Demo.two_users) !! "carol" = None)
    by (vm_compute; reflexivity).
  assert (H3 : 6 <= String.length "s3cret") by (simpl; lia).
  repeat (split; [assumption |]).
  exact (signup_valid_succeeds "t" "carol" "s3cret" (session Demo.two_users) H1 H2 H3).
Defined.

(** ** The missing API key *)

(** C5, as the code has it. With no API key in the secrets (and so
    nothing in the caches), a run stops with the "API key not found"
    error exactly when a logged-in user submits a non-empty chat input,
    pressing no button: every other run, the first one after start
    included, goes through. The stopped run has recorded the user's
    message and shown it before the error. No run makes a completion
    call, and the caches stay empty. *)
Theorem missing_key_stops_at_first_turn
    (secrets : gmap string string)
    (completion : ChatOpenAI -> nat -> list lc_message -> py_result string)
    (clock : nat -> string) (wd : widgets) (w : world) :
  secrets !! "OPENAI_API_KEY" = None ->
  llm_cache w = None ->
  graph_cache w = None ->
  exists o w',
    run_script secrets completion clock wd w = (o, w')
    /\ (o = inr Stop <->
        logged_in (session w) = true /\ exists prompt, submits wd prompt)
    /\ (forall prompt,
          logged_in (session w) = true -> submits wd prompt ->
          trace w' = trace w ++ page_for (session w)
                     ++ [st_chat_message user prompt; st_error api_key_not_found]
          /\ transcript (session w') (username (session w))
             = transcript (session w) (username (session w))
               ++ [user_entry clock w prompt])
    /\ completion_calls (trace w') = completion_calls (trace w)
    /\ llm_cache w' = None
    /\ graph_cache w' = None.
Proof.
  intros Hkey Hlc Hgc. unfold run_script.
  assert (Hcase : logged_in (session w) = true \/ logged_in (session w) = false)
    by (destruct (logged_in (session w)); auto).
  destruct Hcase as [Hin | Hin].
  - destruct (logout_btn wd) eqn:Hout.
    { rewrite main_logout by assumption.
      destruct (main_released secrets completion clock wd
                  {| session := logout (session w); llm_cache := llm_cache w;
                     graph_cache := graph_cache w; clock_reads := clock_reads w;
                     trace := trace w ++
                       [st_success ("Logged in as: **"
                                    +:+ py_str (username (session w)) +:+ "**");
                        called_logout] |})
        as (w' & E & _ & Hlc' & Hgc' & Hcalls).
      rewrite E. exists (inl ()), w'. split; [reflexivity |].
      simpl in Hlc', Hgc', Hcalls.
      rewrite completion_calls_app, app_nil_r in Hcalls.
      apply goes_through; try congruence.
      intros _ prompt (Hp & _). congruence. }
    destruct (clear_btn wd) eqn:Hclear.
    { rewrite main_clear by assumption.
      destruct (main_released secrets completion clock wd
                  {| session := set_history (username (session w)) [] (session w);
                     llm_cache := llm_cache w;
                     graph_cache := graph_cache w; clock_reads := clock_reads w;
                     trace := trace w ++
                       [st_success ("Logged in as: **"
                                    +:+ py_str (username (session w)) +:+ "**");
                        st_info ("💬 Total messages: "
                                 +:+ pretty (length (transcript (session w)
                                                       (username (session w)))));
                        st_success "Chat history cleared!"] |})
        as (w' & E & _ & Hlc' & Hgc' & Hcalls).
      rewrite E. exists (inl ()), w'. split; [reflexivity |].
      simpl in Hlc', Hgc', Hcalls.
      rewrite completion_calls_app, app_nil_r in Hcalls.
      apply goes_through; try congruence.
      intros _ prompt (_ & Hp & _). congruence. }
    rewrite main_logged_in by assumption.
    destruct (chat_input wd) as [prompt|] eqn:Hinput.
    2: { exists (inl ()), (entered w). split; [reflexivity |].
         apply goes_through; try assumption.
         - intros _ prompt (_ & _ & Hp & _). congruence.
         - apply calls_entered. }
    destruct (truthy prompt) eqn:Htruthy; unfold when.
    2: { exists (inl ()), (entered w). split; [reflexivity |].
         apply goes_through; try assumption.
         - intros _ p (_ & _ & Hp & Hne).
           apply truthy_nonempty in Hne. congruence.
         - apply calls_entered. }
    destruct (chat_turn_no_key secrets completion clock (username (session w))
                prompt (entered w))
      as (w' & E & Hs & Ht & Hgc' & Hlc').
    { rewrite graph_for_entered. by apply graph_for_no_key. }
    rewrite E. exists (inr Stop), w'. split; [reflexivity |].
    split; [| split; [| split; [| split]]]; try assumption.
    + split; [| reflexivity]. intros _. split; [exact Hin |].
      exists prompt. repeat split; try assumption.
      by apply truthy_nonempty.
    + intros p _ (_ & _ & Hp & _). assert (p = prompt) as -> by congruence.
      split.
      * rewrite Ht. unfold entered. cbn [trace]. by rewrite <- app_assoc.
      * rewrite Hs, transcript_append_same. cbn [entered session].
        by rewrite transcript_ensure_history.
    + rewrite Ht, completion_calls_app, calls_entered. simpl.
      by rewrite app_nil_r.
  - destruct (main_anonymous secrets completion clock wd w Hin)
      as [(w1 & _ & _ & E & _ & Hlc1 & Hgc1 & Hc1) | (w1 & E & _ & Hlc1 & Hgc1 & Hc1)];
      rewrite E.
    + destruct (main_released secrets completion clock wd w1)
        as (w' & E' & _ & Hlc' & Hgc' & Hcalls).
      rewrite E'. exists (inl ()), w'. split; [reflexivity |].
      apply goes_through; try congruence.
    + exists (inl ()), w1. split; [reflexivity |].
      apply goes_through; try congruence.
Qed.

Lemma missing_key_stops_at_first_turn_witness :
  Demo.no_secrets !! "OPENAI_API_KEY" = None
  /\ llm_cache Demo.alice_in = None
  /\ graph_cache Demo.alice_in = None
  /\ exists w',
       run_script Demo.no_secrets Demo.completion Demo.clock (Demo.say "hello")
                  Demo.alice_in = (inr Stop, w')
       /\ completion_calls (trace w') = completion_calls (trace Demo.alice_in)
       /\ transcript (session w') (Some "alice")
          = [user_entry Demo.clock Demo.alice_in "hello"].
Proof.
  assert (H1 : Demo.no_secrets !! "OPENAI_API_KEY" = None) by reflexivity.
  assert (H2 : llm_cache Demo.alice_in = None) by (vm_compute; reflexivity).
  assert (H3 : graph_cache Demo.alice_in = None) by (vm_compute; reflexivity).
  assert (H4 : logged_in (session Demo.alice_in) = true) by (vm_compute; reflexivity).
  assert (H5 : submits (Demo.say "hello") "hello") by (repeat split; discriminate).
  repeat (split; [assumption |]).
  destruct (missing_key_stops_at_first_turn Demo.no_secrets Demo.completion
              Demo.clock (Demo.say "hello") Demo.alice_in H1 H2 H3)
    as (o & w' & Hrun & Hstop & Hshown & Hcalls & _).
  assert (Ho : o = inr Stop) by (apply Hstop; split; [exact H4 | eexists; exact H5]).
  destruct (Hshown "hello" H4 H5) as (_ & Htr).
  assert (H6 : username (session Demo.alice_in) = Some "alice")
    by (vm_compute; reflexivity).
  assert (H7 : transcript (session Demo.alice_in) (Some "alice") = [])
    by (vm_compute; reflexivity).
  rewrite H6, H7 in Htr.
  exists w'. rewrite <- Ho. repeat split; [exact Hrun | exact Hcalls | exact Htr].
Defined.

(** C5 as stated fails: started with no API key, the application shows
    no error and does not stop; signing up and logging in go through as
    well. *)
Lemma startup_without_key_counterexample :
  Demo.no_secrets !! "OPENAI_API_KEY" = None
  /\ run_script Demo.no_secrets Demo.completion Demo.clock Demo.idle Demo.fresh
     = (inl (),
        {| session := initial_session; llm_cache := None; graph_cache := None;
           clock_reads := 0; trace := [st_info please_login] |})
  /\ trace (Demo.after Demo.no_secrets Demo.completion
              [Demo.idle; Demo.press_signup "alice" "secret1" "secret1";
               Demo.press_login "alice" "secret1"] Demo.fresh)
     = [st_info please_login;
        called_signup "alice" "secret1";
        st_success "Account created successfully";
        st_info please_login;
        called_login "alice" "secret1";
        st_success "Logged in successfully";
        st_success "Logged in as: **alice**";
        st_info "💬 Total messages: 0"].
Proof.
  split; [reflexivity |]. split; vm_compute; reflexivity.
Qed.

(** ** Logout and clearing the history *)

(** C6. A run in which the logged-in user presses "Logout" leaves the
    session anonymous with no current user and with the credential store
    and every chat history untouched (the session is [logout] of the old
    one). If a later run, with [u] typed as the login username, gets the
    session logged in again (only a successful [login] does), it is logged
    in as [u], and the history of [u], as of everyone, reads exactly as
    before the logout. *)
Theorem logout_then_login_restores_transcript
    (secrets : gmap string string)
    (completion : ChatOpenAI -> nat -> list lc_message -> py_result string)
    (clock : nat -> string) (wd_out wd_in : widgets) (w : world) (u : string) :
  logged_in (session w) = true ->
  logout_btn wd_out = true ->
  login_user wd_in = u ->
  logged_in (session (run_script secrets completion clock wd_in
                        (run_script secrets completion clock wd_out w).2).2) = true ->
  session (run_script secrets completion clock wd_out w).2 = logout (session w)
  /\ logged_in (logout (session w)) = false
  /\ username (logout (session w)) = None
  /\ users (logout (session w)) = users (session w)
  /\ chat_histories (logout (session w)) = chat_histories (session w)
  /\ username (session (run_script secrets completion clock wd_in
                          (run_script secrets completion clock wd_out w).2).2) = Some u
  /\ forall k,
       transcript (session (run_script secrets completion clock wd_in
                              (run_script secrets completion clock wd_out w).2).2) k
       = transcript (session w) k.
Proof.
  intros Hin Hout Hu Hback.
  destruct (run_logout secrets completion clock wd_out w Hin Hout) as (w1 & E1 & Hs1).
  rewrite E1 in *. cbn [snd] in *.
  split; [exact Hs1 |]. repeat (split; [reflexivity |]).
  assert (Hanon : logged_in (session w1) = false) by (by rewrite Hs1).
  unfold run_script in *.
  destruct (main_anonymous secrets completion clock wd_in w1 Hanon)
    as [(w2 & _ & Hok & E & Hs & _) | (w2 & E & Hl & _)];
    rewrite E in *; cbn [snd] in *.
  - rewrite (login_success_state _ _ _ Hok) in Hs.
    rewrite main_released_logged_in in * by (by rewrite Hs).
    cbn [snd entered session] in *.
    destruct (ensure_history_frame (session w2)) as (_ & Hn & _).
    split.
    + rewrite Hn, Hs. simpl. by rewrite Hu.
    + intros k. rewrite transcript_ensure_history, Hs, Hs1. reflexivity.
  - congruence.
Qed.

Lemma logout_then_login_restores_transcript_witness :
  logged_in (session Demo.alice_one_turn) = true
  /\ length (transcript (session Demo.alice_one_turn) (Some "alice")) = 2
  /\ username (session (run_script Demo.secrets Demo.completion Demo.clock
                          (Demo.press_login "alice" "secret1")
                          (run_script Demo.secrets Demo.completion Demo.clock
                             Demo.press_logout Demo.alice_one_turn).2).2)
     = Some "alice"
  /\ transcript (session (run_script Demo.secrets Demo.completion Demo.clock
                            (Demo.press_login "alice" "secret1")
                            (run_script Demo.secrets Demo.completion Demo.clock
                               Demo.press_logout Demo.alice_one_turn).2).2)
                (Some "alice")
     = transcript (session Demo.alice_one_turn) (Some "alice").
Proof.
  assert (H1 : logged_in (session Demo.alice_one_turn) = true)
    by (vm_compute; reflexivity).
  split; [exact H1 |]. split; [vm_compute; reflexivity |].
  assert (H2 : logged_in
                 (session (run_script Demo.secrets Demo.completion Demo.clock
                             (Demo.press_login "alice" "secret1")
                             (run_script Demo.secrets Demo.completion Demo.clock
                                Demo.press_logout Demo.alice_one_turn).2).2) = true)
    by (vm_compute; reflexivity).
  destruct (logout_then_login_restores_transcript Demo.secrets Demo.completion
              Demo.clock Demo.press_logout (Demo.press_login "alice" "secret1")
              Demo.alice_one_turn "alice" H1 eq_refl eq_refl H2)
    as (_ & _ & _ & _ & _ & Hname & Htr).
  split; [exact Hname | exact (Htr (Some "alice"))].
Defined.

(** C7. When user A is logged in and presses "Clear Chat History", the run
    leaves A with the empty history, leaves the history of every other
    user B as it was, and changes neither the credential store nor who is
    logged in. *)
Theorem clear_history_only_own
    (secrets : gmap string string)
    (completion : ChatOpenAI -> nat -> list lc_message -> py_result string)
    (clock : nat -> string) (wd : widgets) (w : world) (A B : string) :
  logged_in (session w) = true ->
  username (session w) = Some A ->
  logout_btn wd = false ->
  clear_btn wd = true ->
  A <> B ->
  let w' := (run_script secrets completion clock wd w).2 in
  chat_histories (session w') !! Some A = Some []
  /\ chat_histories (session w') !! Some B = chat_histories (session w) !! Some B
  /\ users (session w') = users (session w)
  /\ logged_in (session w') = true
  /\ username (session w') = Some A.
Proof.
  intros Hin HA Hout Hclear Hne. unfold run_script.
  rewrite main_clear by assumption.
  rewrite main_released_logged_in by (simpl; assumption).
  simpl. rewrite HA.
  destruct (ensure_history_frame (set_history (Some A) [] (session w)))
    as (Hl & Hu & Hus & Hother).
  simpl in *. rewrite Hl, Hu, Hus. repeat split; try assumption.
  - unfold ensure_history, set_history. simpl. rewrite HA.
    rewrite lookup_insert_eq. simpl. apply lookup_insert_eq.
  - rewrite Hother by congruence. apply lookup_insert_ne. congruence.
Qed.

Lemma clear_history_only_own_witness :
  logged_in (session Demo.alice_one_turn) = true
  /\ username (session Demo.alice_one_turn) = Some "alice"
  /\ length (transcript (session Demo.alice_one_turn) (Some "alice")) = 2
  /\ chat_histories
       (session (run_script Demo.secrets Demo.completion Demo.clock
                   Demo.press_clear Demo.alice_one_turn).2) !! Some "alice" = Some []
  /\ chat_histories
       (session (run_script Demo.secrets Demo.completion Demo.clock
                   Demo.press_clear Demo.alice_one_turn).2) !! Some "bob"
     = chat_histories (session Demo.alice_one_turn) !! Some "bob".
Proof.
  assert (H1 : logged_in (session Demo.alice_one_turn) = true)
    by (vm_compute; reflexivity).
  assert (H2 : username (session Demo.alice_one_turn) = Some "alice")
    by (vm_compute; reflexivity).
  assert (H3 : "alice" <> "bob") by discriminate.
  split; [exact H1 |]. split; [exact H2 |].
  split; [vm_compute; reflexivity |].
  pose proof (clear_history_only_own Demo.secrets Demo.completion Demo.clock
                Demo.press_clear Demo.alice_one_turn "alice" "bob"
                H1 H2 eq_refl eq_refl H3) as (Ha & Hb & _).
  split; [exact Ha | exact Hb].
Defined.

(** ** Failed signups and logins *)

(** C8. Whatever the password (short and empty ones included), a signup
    with a username that is already in the credential store fails with
    "Username already exists" and leaves the whole session state, so both
    stores, as it was. *)
Theorem signup_duplicate_fails (now uname pwd : string) (s : session_state) :
  is_Some (users s !! uname) ->
  signup now uname pwd s = ((false, "Username already exists"), s).
Proof.
  intros [u Hu]. unfold signup. by rewrite Hu.
Qed.

Lemma signup_duplicate_fails_witness :
  is_Some (users (session Demo.two_users) !! "alice")
  /\ signup "t" "alice" "" (session Demo.two_users)
     = ((false, "Username already exists"), session Demo.two_users).
Proof.
  assert (H : is_Some (users (session Demo.two_users) !! "alice"))
    by (vm_compute; eexists; reflexivity).
  split; [exact H |].
  exact (signup_duplicate_fails "t" "alice" "" (session Demo.two_users) H).
Defined.

(** C9. When [signup] or [login] reports a failure, the session state it
    leaves is the one it was given: credential store, chat histories,
    [logged_in] and the current username are unchanged. *)
Theorem failed_auth_changes_nothing (now uname pwd : string) (s : session_state) :
  ((signup now uname pwd s).1.1 = false -> (signup now uname pwd s).2 = s)
  /\ ((login uname pwd s).1.1 = false -> (login uname pwd s).2 = s).
Proof.
  split.
  - unfold signup. destruct (users s !! uname); [done |].
    destruct (String.length pwd <? 6)%nat; [done |].
    destruct (negb (truthy uname) || negb (truthy pwd)); [done |].
    simpl. discriminate.
  - unfold login. destruct (users s !! uname) as [u|]; [| done].
    destruct (negb (String.eqb (password u) pwd)); [done |].
    simpl. discriminate.
Qed.

Lemma failed_auth_changes_nothing_witness :
  (signup "t" "dave" "short" (session Demo.two_users)).1.1 = false
  /\ (login "alice" "wrongpass" (session Demo.two_users)).1.1 = false
  /\ (signup "t" "dave" "short" (session Demo.two_users)).2 = session Demo.two_users
  /\ (login "alice" "wrongpass" (session Demo.two_users)).2 = session Demo.two_users.
Proof.
  assert (H1 : (signup "t" "dave" "short" (session Demo.two_users)).1.1 = false)
    by (vm_compute; reflexivity).
  assert (H2 : (login "alice" "wrongpass" (session Demo.two_users)).1.1 = false)
    by (vm_compute; reflexivity).
  repeat (split; [assumption |]).
  split.
  - exact (proj1 (failed_auth_changes_nothing "t" "dave" "short"
                    (session Demo.two_users)) H1).
  - exact (proj2 (failed_auth_changes_nothing "t" "alice" "wrongpass"
                    (session Demo.two_users)) H2).
Defined.

(** C10, as the code has it. In an anonymous session, a "Sign Up"
    submission whose password differs from its confirmation never reaches
    [signup]: the run shows one error and the invitation to log in, and
    leaves the session state, the caches and the clock untouched. The
    error is "Passwords don't match" when the username and the password
    are both non-empty; when one of them is empty the check at line 135
    comes first and the error is "Please fill in all fields". *)
Theorem signup_mismatch_never_signs_up
    (secrets : gmap string string)
    (completion : ChatOpenAI -> nat -> list lc_message -> py_result string)
    (clock : nat -> string) (wd : widgets) (w : world) :
  logged_in (session w) = false ->
  login_btn wd = false ->
  signup_btn wd = true ->
  signup_pass wd <> signup_pass_confirm wd ->
  run_script secrets completion clock wd w =
    (inl (),
     {| session := session w; llm_cache := llm_cache w;
        graph_cache := graph_cache w; clock_reads := clock_reads w;
        trace := trace w ++
          [st_error (if truthy (signup_user wd) && truthy (signup_pass wd)
                     then "Passwords don't match"
                     else "Please fill in all fields");
           st_info please_login] |}).
Proof.
  intros Hin Hl Hs Hne.
  destruct w as [[li un us ch] lc gc n t], wd; simpl in *; subst.
  unfold run_script, main, sidebar, login_tab, signup_tab, when, bind,
    get_session, emit, ret. simpl.
  destruct (truthy signup_user0), (truthy signup_pass0); simpl;
    try (rewrite <- !app_assoc; reflexivity).
  destruct (String.eqb_spec signup_pass0 signup_pass_confirm0) as [Heq|_];
    [contradiction |]. simpl.
  rewrite <- !app_assoc. reflexivity.
Qed.

Lemma signup_mismatch_never_signs_up_witness :
  logged_in (session Demo.two_users) = false
  /\ signup_pass (Demo.press_signup "carol" "s3cret" "s3cert")
     <> signup_pass_confirm (Demo.press_signup "carol" "s3cret" "s3cert")
  /\ run_script Demo.secrets Demo.completion Demo.clock
       (Demo.press_signup "carol" "s3cret" "s3cert") Demo.two_users
     = (inl (),
        {| session := session Demo.two_users;
           llm_cache := llm_cache Demo.two_users;
           graph_cache := graph_cache Demo.two_users;
           clock_reads := clock_reads Demo.two_users;
           trace := trace Demo.two_users ++
             [st_error "Passwords don't match"; st_info please_login] |}).
Proof.
  assert (H1 : logged_in (session Demo.two_users) = false) by (vm_compute; reflexivity).
  assert (H2 : signup_pass (Demo.press_signup "carol" "s3cret" "s3cert")
               <> signup_pass_confirm (Demo.press_signup "carol" "s3cret" "s3cert"))
    by (simpl; discriminate).
  split; [exact H1 |]. split; [exact H2 |].
  exact (signup_mismatch_never_signs_up Demo.secrets Demo.completion Demo.clock
           (Demo.press_signup "carol" "s3cret" "s3cert") Demo.two_users
           H1 eq_refl eq_refl H2).
Defined.

(** C10 as stated fails: with an empty username, a password and a
    different confirmation, the error shown is "Please fill in all
    fields", and "Passwords don't match" is not shown. *)
Lemma signup_mismatch_message_counterexample :
  signup_pass (Demo.press_signup "" "secret1" "secret2")
  <> signup_pass_confirm (Demo.press_signup "" "secret1" "secret2")
  /\ trace (run_script Demo.secrets Demo.completion Demo.clock
              (Demo.press_signup "" "secret1" "secret2") Demo.fresh).2
     = [st_error "Please fill in all fields"; st_info please_login]
  /\ ~ In (st_error "Passwords don't match")
          (trace (run_script Demo.secrets Demo.completion Demo.clock
                    (Demo.press_signup "" "secret1" "secret2") Demo.fresh).2).
Proof.
  assert (Ht : trace (run_script Demo.secrets Demo.completion Demo.clock
                        (Demo.press_signup "" "secret1" "secret2") Demo.fresh).2
               = [st_error "Please fill in all fields"; st_info please_login])
    by (vm_compute; reflexivity).
  split; [simpl; discriminate |]. split; [exact Ht |].
  rewrite Ht. intros [H | [H | []]]; discriminate H.
Qed.

(** * Further properties *)

(** ** Every run, by cases *)

Section RunCases.

Variable secrets : gmap string string.
Variable completion : ChatOpenAI -> nat -> list lc_message -> py_result string.
Variable clock : nat -> string.

(** The Login tab: a successful login leaves through [st.rerun()];
    anything else changes nothing but what is shown. *)
Lemma login_tab_cases (wd : widgets) (w : world) :
  (login_btn wd = true /\ truthy (login_user wd) = true
   /\ truthy (login_pass wd) = true
   /\ (login (login_user wd) (login_pass wd) (session w)).1.1 = true
   /\ exists w1,
        login_tab wd w = (inr Rerun, w1)
        /\ session w1 = (login (login_user wd) (login_pass wd) (session w)).2
        /\ llm_cache w1 = llm_cache w /\ graph_cache w1 = graph_cache w
        /\ completion_calls (trace w1) = completion_calls (trace w))
  \/ (exists w1,
        login_tab wd w = (inl (), w1)
        /\ session w1 = session w /\ clock_reads w1 = clock_reads w
        /\ llm_cache w1 = llm_cache w /\ graph_cache w1 = graph_cache w
        /\ completion_calls (trace w1) = completion_calls (trace w)
        /\ (login_btn wd = true -> truthy (login_user wd) = true ->
            truthy (login_pass wd) = true ->
            (login (login_user wd) (login_pass wd) (session w)).1.1 = false)).
Proof.
  destruct w as [s lc gc n t], wd; simpl in *.
  unfold login_tab, call_login, when, bind, get_session, put_session, emit,
    ret, raise; simpl.
  destruct login_btn0; simpl; [| right; eexists; split; [reflexivity | done]].
  destruct (truthy login_user0) eqn:Hu, (truthy login_pass0) eqn:Hp; simpl;
    try (right; eexists; split; [reflexivity |]; simpl;
         rewrite !completion_calls_app, !app_nil_r; done).
  destruct (login_cases login_user0 login_pass0 s)
    as [[_ E] | [(u & _ & _ & E) | (u & _ & _ & E)]]; rewrite E; simpl.
  - right. eexists. split; [reflexivity |]. simpl.
    by rewrite !completion_calls_app, !app_nil_r.
  - right. eexists. split; [reflexivity |]. simpl.
    by rewrite !completion_calls_app, !app_nil_r.
  - left. repeat (split; [reflexivity |]). eexists.
    repeat (split; [reflexivity |]). simpl.
    by rewrite !completion_calls_app, !app_nil_r.
Qed.

(** The Sign Up tab: the session changes at most by what [signup] does,
    and [signup] is reached only with both fields filled and the
    confirmation equal to the password. *)
Lemma signup_tab_cases (wd : widgets) (w : world) :
  exists w',
    signup_tab clock wd w = (inl (), w')
    /\ llm_cache w' = llm_cache w /\ graph_cache w' = graph_cache w
    /\ completion_calls (trace w') = completion_calls (trace w)
    /\ (session w' = session w
        \/ (signup_btn wd = true /\ truthy (signup_user wd) = true
            /\ truthy (signup_pass wd) = true
            /\ signup_pass wd = signup_pass_confirm wd
            /\ session w' = (signup (clock (clock_reads w)) (signup_user wd)
                                    (signup_pass wd) (session w)).2)).
Proof.
  destruct w as [s lc gc n t], wd; simpl in *.
  unfold signup_tab, call_signup, when, bind, emit, ret; simpl.
  destruct signup_btn0; simpl; [| eexists; split; [reflexivity |]; auto].
  destruct (truthy signup_user0) eqn:Hu, (truthy signup_pass0) eqn:Hp; simpl;
    try (eexists; split; [reflexivity |]; simpl;
         rewrite !completion_calls_app, !app_nil_r; auto).
  destruct (String.eqb_spec signup_pass0 signup_pass_confirm0) as [Heq | Hne]; simpl.
  - destruct (signup (clock n) signup_user0 signup_pass0 s) as [[ok msg] s'] eqn:E.
    simpl. destruct ok; simpl;
      (eexists; split; [reflexivity |]); simpl;
      rewrite !completion_calls_app, !app_nil_r;
      repeat (split; [reflexivity |]); right; auto.
  - eexists; split; [reflexivity |]; simpl.
    rewrite !completion_calls_app, !app_nil_r. auto.
Qed.

(** The pass of an anonymous session, written out. *)
Lemma main_anonymous_unfold (wd : widgets) (w : world) :
  logged_in (session w) = false ->
  main secrets completion clock wd w =
    match login_tab wd w with
    | (inl _, w1) =>
      match signup_tab clock wd w1 with
      | (inl _, w2) =>
        if logged_in (session w2)
        then chat_interface secrets completion clock wd w2
        else emit (st_info please_login) w2
      | (inr x, w2) => (inr x, w2)
      end
    | (inr x, w1) => (inr x, w1)
    end.
Proof.
  intros Hin. unfold main, sidebar, bind, get_session. rewrite Hin. simpl.
  destruct (login_tab wd w) as [[[]|x] w1]; [| reflexivity].
  destruct (signup_tab clock wd w1) as [[[]|x] w2]; [| reflexivity].
  destruct (logged_in (session w2)); reflexivity.
Qed.

(** Every run of the script is of one of the kinds of [run_spec]. *)
Lemma run_script_spec (wd : widgets) (w : world) :
  run_spec secrets completion clock wd w
    (run_script secrets completion clock wd w).1
    (run_script secrets completion clock wd w).2.
Proof.
  unfold run_script.
  assert (Hcase : logged_in (session w) = true \/ logged_in (session w) = false)
    by (destruct (logged_in (session w)); auto).
  destruct Hcase as [Hin | Hin].
  - destruct (logout_btn wd) eqn:Hout.
    { rewrite main_logout by assumption.
      rewrite main_anonymous_idle by done. simpl.
      apply run_logged_out; try done. simpl.
      by rewrite !completion_calls_app, !app_nil_r. }
    destruct (clear_btn wd) eqn:Hclear.
    { rewrite main_clear by assumption.
      rewrite main_released_logged_in by done. cbn [fst snd].
      apply run_cleared; try done.
      rewrite calls_entered. simpl. by rewrite !completion_calls_app, !app_nil_r. }
    rewrite main_logged_in by assumption.
    destruct (chat_input wd) as [prompt|] eqn:Hinput.
    2: { cbn [fst snd ret]. apply run_viewed; try done.
         - intros p (_ & _ & Hp & _). congruence.
         - apply calls_entered. }
    destruct (truthy prompt) eqn:Htruthy; unfold when.
    2: { cbn [fst snd ret]. apply run_viewed; try done.
         - intros p (_ & _ & Hp & Hne). apply truthy_nonempty in Hne. congruence.
         - apply calls_entered. }
    assert (Hsub : submits wd prompt).
    { repeat split; try assumption. by apply truthy_nonempty. }
    destruct (graph_for secrets w) as [app|] eqn:Happ.
    2: { destruct (chat_turn_no_key secrets completion clock (username (session w))
                     prompt (entered w)) as (w' & E & Hs & Ht & Hg & _).
         { by rewrite graph_for_entered. }
         rewrite E. cbn [fst snd]. eapply run_turn_stopped; try eassumption.
         rewrite Ht, completion_calls_app, calls_entered. simpl.
         by rewrite app_nil_r. }
    destruct (completion (node_llm app) (length (completion_calls (trace w)))
                (turn_payload clock app (username (session w)) prompt w))
      as [r | e] eqn:Hc.
    + destruct (chat_turn_returned secrets completion clock (username (session w))
                  prompt r (entered w) app) as (w' & E & Hs & Ht & Hg).
      { by rewrite graph_for_entered. }
      { by rewrite calls_entered, turn_payload_entered. }
      rewrite E. cbn [fst snd]. rewrite turn_payload_entered in Hg.
      eapply run_turn_returned; try eassumption.
      rewrite Ht, completion_calls_app, calls_entered, turn_payload_entered.
      reflexivity.
    + destruct (chat_turn_raised secrets completion clock (username (session w))
                  prompt e (entered w) app) as (w' & E & Hs & Ht & Hg).
      { by rewrite graph_for_entered. }
      { by rewrite calls_entered, turn_payload_entered. }
      rewrite E. cbn [fst snd]. rewrite turn_payload_entered in Hg.
      eapply run_turn_raised; try eassumption.
      rewrite Ht, completion_calls_app, calls_entered, turn_payload_entered.
      reflexivity.
  - rewrite main_anonymous_unfold by assumption.
    destruct (login_tab_cases wd w)
      as [(Hb & Hu & Hp & Hok & w1 & E & Hs & _ & Hg & Hc)
         | (w1 & E & Hs & Hn & _ & Hg & Hc & Hrej)]; rewrite E.
    + assert (Hin1 : logged_in (session w1) = true).
      { rewrite Hs, (login_success_state _ _ _ Hok). reflexivity. }
      rewrite main_released_logged_in by assumption. cbn [fst snd].
      apply run_login; try assumption.
      * unfold login_accepted. by rewrite Hb, Hu, Hp, Hok.
      * simpl. by rewrite Hs.
      * by rewrite calls_entered.
    + assert (Hno : login_accepted wd (session w) = false).
      { unfold login_accepted.
        destruct (login_btn wd); [| reflexivity].
        destruct (truthy (login_user wd)); [| reflexivity].
        destruct (truthy (login_pass wd)); [| reflexivity].
        simpl. by apply Hrej. }
      destruct (signup_tab_cases wd w1) as (w2 & E2 & _ & Hg2 & Hc2 & Hs2).
      rewrite E2.
      assert (Hin2 : logged_in (session w2) = false).
      { destruct Hs2 as [-> | (_ & _ & _ & _ & ->)].
        - by rewrite Hs.
        - destruct (signup_keeps_login (clock (clock_reads w1)) (signup_user wd)
                      (signup_pass wd) (session w1)) as [-> _]. by rewrite Hs. }
      rewrite Hin2. unfold emit. cbn [fst snd].
      destruct Hs2 as [Hs2 | (Hb & Hu & Hp & Heq & Hs2)].
      * apply run_anonymous; try assumption.
        -- simpl. by rewrite Hs2, Hs.
        -- simpl. by rewrite completion_calls_app, app_nil_r, Hc2, Hc.
        -- simpl. by rewrite Hg2, Hg.
      * apply run_signup; try assumption.
        -- simpl. by rewrite Hs2, Hs, Hn.
        -- simpl. by rewrite completion_calls_app, app_nil_r, Hc2, Hc.
        -- simpl. by rewrite Hg2, Hg.
Qed.

End RunCases.

(** ** Signup and login, together *)

Lemma signup_cases (now uname pwd : string) (s : session_state) :
  (is_Some (users s !! uname)
   /\ signup now uname pwd s = ((false, "Username already exists"), s))
  \/ (users s !! uname = None /\ String.length pwd < 6
      /\ signup now uname pwd s
         = ((false, "Password must be at least 6 characters"), s))
  \/ (users s !! uname = None /\ 6 <= String.length pwd /\ uname = ""
      /\ signup now uname pwd s
         = ((false, "Username and password cannot be empty"), s))
  \/ (users s !! uname = None /\ 6 <= String.length pwd /\ uname <> ""
      /\ signup now uname pwd s
         = ((true, "Account created successfully"),
            {| logged_in := logged_in s; username := username s;
               users := <[uname := {| password := pwd; created_at := now |}]> (users s);
               chat_histories := <[Some uname := []]> (chat_histories s) |})).
Proof.
  unfold signup. destruct (users s !! uname) as [u|] eqn:Hu.
  { left. split; [by eexists | reflexivity]. }
  right. destruct (String.length pwd <? 6)%nat eqn:Hshort.
  { apply Nat.ltb_lt in Hshort. left. auto. }
  apply Nat.ltb_ge in Hshort. right.
  assert (Hp : truthy pwd = true) by (destruct pwd; simpl in *; [lia | done]).
  rewrite Hp. destruct uname as [|c rest]; simpl.
  - left. auto.
  - right. repeat split; auto.
Qed.

(** X1. [signup] succeeds exactly for a non-empty username that is not
    yet in the credential store, with a password of at least 6
    characters. *)
Theorem signup_succeeds_iff (now uname pwd : string) (s : session_state) :
  (signup now uname pwd s).1.1 = true
  <-> uname <> "" /\ users s !! uname = None /\ 6 <= String.length pwd.
Proof.
  destruct (signup_cases now uname pwd s)
    as [[[u Hu] E] | [(Hu & Hl & E) | [(Hu & Hl & Hn & E) | (Hu & Hl & Hn & E)]]];
    rewrite E; simpl; split; try discriminate; try done.
  - intros (_ & Hnone & _). congruence.
  - intros (_ & _ & Hlen). lia.
  - intros (Hne & _). congruence.
Qed.

(** X2. Which rejection [signup] gives. A taken username is reported as
    such whatever the password. For a free username, a password of fewer
    than 6 characters, the empty one included, is reported as too short
    whatever the username; "cannot be empty" is given only for the empty
    username with a password of 6 characters or more, so an empty password
    is never reported as empty. *)
Theorem signup_rejections (now uname pwd : string) (s : session_state) :
  ((signup now uname pwd s).1 = (false, "Username already exists")
   <-> is_Some (users s !! uname))
  /\ ((signup now uname pwd s).1 = (false, "Password must be at least 6 characters")
      <-> users s !! uname = None /\ String.length pwd < 6)
  /\ ((signup now uname pwd s).1 = (false, "Username and password cannot be empty")
      <-> users s !! uname = None /\ 6 <= String.length pwd /\ uname = "").
Proof.
  destruct (signup_cases now uname pwd s)
    as [[[u Hu] E] | [(Hu & Hl & E) | [(Hu & Hl & Hn & E) | (Hu & Hl & Hn & E)]]];
    rewrite E; cbn [fst]; rewrite Hu;
    (split; [| split]); (split; [intros H | intros H]);
    repeat match goal with
           | H : _ /\ _ |- _ => destruct H
           | H : is_Some None |- _ => destruct H as [? H]
           end;
    try done; try congruence; try lia; auto.
Qed.

(** X3. After a successful signup the new credentials work: [login] with
    the same username and password succeeds and binds the session to that
    user, and with any other password it fails with "Incorrect
    password". *)
Theorem signup_then_login (now uname pwd : string) (s : session_state) :
  (signup now uname pwd s).1.1 = true ->
  (login uname pwd (signup now uname pwd s).2).1 = (true, "Logged in successfully")
  /\ logged_in (login uname pwd (signup now uname pwd s).2).2 = true
  /\ username (login uname pwd (signup now uname pwd s).2).2 = Some uname
  /\ (forall other, other <> pwd ->
      login uname other (signup now uname pwd s).2
      = ((false, "Incorrect password"), (signup now uname pwd s).2)).
Proof.
  intros Hok.
  destruct (signup_cases now uname pwd s)
    as [[Hu E] | [(Hu & Hl & E) | [(Hu & Hl & Hn & E) | (Hu & Hl & Hn & E)]]];
    rewrite E in *; simpl in Hok; try discriminate.
  cbn [snd]. unfold login. cbn [users]. rewrite lookup_insert_eq. cbn [password].
  rewrite String.eqb_refl. simpl. repeat split.
  intros other Hne. destruct (String.eqb_spec pwd other); [congruence | reflexivity].
Qed.

Lemma signup_then_login_witness :
  (signup "t" "carol" "s3cret" (session Demo.two_users)).1.1 = true
  /\ (login "carol" "s3cret"
        (signup "t" "carol" "s3cret" (session Demo.two_users)).2).1
     = (true, "Logged in successfully")
  /\ login "carol" "S3CRET" (signup "t" "carol" "s3cret" (session Demo.two_users)).2
     = ((false, "Incorrect password"),
        (signup "t" "carol" "s3cret" (session Demo.two_users)).2).
Proof.
  assert (H : (signup "t" "carol" "s3cret" (session Demo.two_users)).1.1 = true)
    by (vm_compute; reflexivity).
  destruct (signup_then_login "t" "carol" "s3cret" (session Demo.two_users) H)
    as (Hin & _ & _ & Hother).
  split; [exact H |]. split; [exact Hin |].
  apply Hother. discriminate.
Defined.

(** X4. Logging out undoes logging in: from an anonymous session,
    [login] followed by [logout] gives back the session state it started
    from, whether the login succeeded or not. *)
Theorem login_then_logout (uname pwd : string) (s : session_state) :
  logged_in s = false ->
  username s = None ->
  logout (login uname pwd s).2 = s.
Proof.
  intros Hl Hn. destruct s as [li un us ch]. simpl in *. subst.
  destruct (login_cases uname pwd
              {| logged_in := false; username := None; users := us;
                 chat_histories := ch |})
    as [[_ E] | [(u & _ & _ & E) | (u & _ & _ & E)]]; rewrite E; reflexivity.
Qed.

Lemma login_then_logout_witness :
  logged_in (session Demo.two_users) = false
  /\ username (session Demo.two_users) = None
  /\ (login "alice" "secret1" (session Demo.two_users)).1.1 = true
  /\ logout (login "alice" "secret1" (session Demo.two_users)).2
     = session Demo.two_users.
Proof.
  assert (H1 : logged_in (session Demo.two_users) = false) by (vm_compute; reflexivity).
  assert (H2 : username (session Demo.two_users) = None) by (vm_compute; reflexivity).
  split; [exact H1 |]. split; [exact H2 |].
  split; [vm_compute; reflexivity |].
  exact (login_then_logout "alice" "secret1" (session Demo.two_users) H1 H2).
Defined.

(** ** What every run keeps *)

Lemma set_history_ok (l : list chat_entry) (s : session_state) :
  session_ok s -> logged_in s = true ->
  session_ok (set_history (username s) l s).
Proof.
  intros (Ha & Hh & Hc) Hin. unfold session_ok, auth_consistent, histories_owned,
    credentials_valid, set_history in *. cbn [logged_in username users chat_histories].
  rewrite Hin in *. split; [exact Ha | split; [| exact Hc]].
  apply map_Forall_insert_2; [| exact Hh].
  destruct (username s); [exact Ha | contradiction].
Qed.

Lemma ensure_history_ok (s : session_state) :
  session_ok s -> logged_in s = true -> session_ok (ensure_history s).
Proof.
  intros Hok Hin. unfold ensure_history.
  destruct (chat_histories s !! username s); [exact Hok |].
  by apply set_history_ok.
Qed.

Lemma append_history_ok (e : chat_entry) (s : session_state) :
  session_ok s -> logged_in s = true ->
  session_ok (append_history (username s) e s).
Proof. intros Hok Hin. unfold append_history. by apply set_history_ok. Qed.

Lemma logout_ok (s : session_state) : session_ok s -> session_ok (logout s).
Proof.
  intros (Ha & Hh & Hc). unfold session_ok, auth_consistent, histories_owned,
    credentials_valid, logout in *. simpl. auto.
Qed.

Lemma login_ok (uname pwd : string) (s : session_state) :
  session_ok s -> session_ok (login uname pwd s).2.
Proof.
  intros Hok.
  destruct (login_cases uname pwd s)
    as [[_ E] | [(u & _ & _ & E) | (u & Hu & _ & E)]]; rewrite E; try exact Hok.
  destruct Hok as (Ha & Hh & Hc).
  unfold session_ok, auth_consistent, histories_owned, credentials_valid in *.
  simpl. split; [by eexists | split; assumption].
Qed.

Lemma signup_ok (now uname pwd : string) (s : session_state) :
  session_ok s -> session_ok (signup now uname pwd s).2.
Proof.
  intros Hok.
  destruct (signup_cases now uname pwd s)
    as [[Hu E] | [(Hu & Hl & E) | [(Hu & Hl & Hn & E) | (Hu & Hl & Hn & E)]]];
    rewrite E; try exact Hok.
  destruct Hok as (Ha & Hh & Hc).
  unfold session_ok, auth_consistent, histories_owned, credentials_valid in *.
  simpl. split; [| split].
  - destruct (logged_in s); [| exact Ha].
    destruct (username s) as [v|]; [| exact Ha].
    apply lookup_insert_is_Some'. by right.
  - apply map_Forall_insert_2.
    + apply lookup_insert_is_Some'. by left.
    + eapply map_Forall_impl; [exact Hh |].
      intros [v|] _ Hv; [| exact Hv]. simpl in *.
      apply lookup_insert_is_Some'. by right.
  - apply map_Forall_insert_2; [| exact Hc]. simpl. split; assumption.
Qed.

(** One run keeps the session state well formed. *)
Lemma run_script_ok
    (secrets : gmap string string)
    (completion : ChatOpenAI -> nat -> list lc_message -> py_result string)
    (clock : nat -> string) (wd : widgets) (w : world) :
  session_ok (session w) ->
  session_ok (session (run_script secrets completion clock wd w).2).
Proof.
  intros Hok.
  assert (Hensure : logged_in (session w) = true ->
                    session_ok (ensure_history (session w)))
    by (intros; by apply ensure_history_ok).
  assert (Hframe := ensure_history_frame (session w)).
  destruct Hframe as (Hl & Hn & _).
  destruct (run_script_spec secrets completion clock wd w)
    as [w' Hin Hacc Hs _
       | w' Hin Hacc _ _ _ _ Hs _
       | w' Hin Hacc Hs _
       | w' Hin _ Hs _
       | w' Hin _ _ Hs _
       | w' Hin _ _ _ Hs _
       | w' prompt Hin _ _ Hs _
       | w' prompt app e Hin _ _ _ Hs _
       | w' prompt app r Hin _ _ _ Hs _]; rewrite Hs.
  - exact Hok.
  - by apply signup_ok.
  - apply ensure_history_ok.
    + by apply login_ok.
    + unfold login_accepted in Hacc.
      apply andb_true_iff in Hacc as [_ Hacc].
      by rewrite (login_success_state _ _ _ Hacc).
  - by apply logout_ok.
  - apply ensure_history_ok; [by apply set_history_ok | exact Hin].
  - by apply Hensure.
  - rewrite <- Hn. apply append_history_ok; [by apply Hensure | by rewrite Hl].
  - rewrite <- Hn. apply append_history_ok; [by apply Hensure | by rewrite Hl].
  - rewrite <- Hn.
    assert (Hu : session_ok (append_history (username (ensure_history (session w)))
                               (user_entry clock w prompt)
                               (ensure_history (session w))))
      by (apply append_history_ok; [by apply Hensure | by rewrite Hl]).
    apply (append_history_ok (assistant_entry clock w r)) in Hu; [exact Hu |].
    simpl. by rewrite Hl.
Qed.

Lemma initial_session_ok : session_ok initial_session.
Proof.
  split; [reflexivity | split]; apply map_Forall_empty.
Qed.

(** Any sequence of runs keeps the session state well formed. *)
Lemma run_all_ok
    (secrets : gmap string string)
    (completion : ChatOpenAI -> nat -> list lc_message -> py_result string)
    (clock : nat -> string) (runs : list widgets) (w : world) :
  session_ok (session w) ->
  session_ok (session (run_all secrets completion clock runs w)).
Proof.
  revert w. induction runs as [|wd runs IH]; intros w Hok; [exact Hok |].
  cbn [run_all foldl]. apply IH. by apply run_script_ok.
Qed.

(** The example worlds are well formed. *)
Lemma demo_worlds_ok :
  session_ok (session Demo.two_users)
  /\ session_ok (session Demo.alice_in)
  /\ session_ok (session Demo.alice_one_turn).
Proof.
  assert (H2 : session_ok (session Demo.two_users)).
  { exact (run_all_ok Demo.secrets Demo.completion Demo.clock
             [Demo.press_signup "alice" "secret1" "secret1";
              Demo.press_signup "bob" "hunter22" "hunter22"]
             Demo.fresh initial_session_ok). }
  assert (H3 : session_ok (session Demo.alice_in)).
  { exact (run_all_ok Demo.secrets Demo.completion Demo.clock
             [Demo.press_login "alice" "secret1"] Demo.two_users H2). }
  split; [exact H2 |]. split; [exact H3 |].
  exact (run_all_ok Demo.secrets Demo.completion Demo.clock
           [Demo.say "hello"] Demo.alice_in H3).
Qed.

(** X5. Every session state the application reaches is well formed: after
    any sequence of runs from the start of a process, whatever is pressed
    or typed and whatever the model answers, the logged-in flag and the
    current username agree (a logged-in session is bound to a registered
    user, an anonymous one to [None]), every chat history belongs to a
    registered user, and every account has a non-empty name and a password
    of at least 6 characters. *)
Theorem reachable_session_ok
    (secrets : gmap string string)
    (completion : ChatOpenAI -> nat -> list lc_message -> py_result string)
    (clock : nat -> string) (runs : list widgets) :
  session_ok (session (run_all secrets completion clock runs Demo.fresh)).
Proof.
  apply run_all_ok. exact initial_session_ok.
Qed.

(** What a run does to the credential store: nothing, or the one
    insertion of a successful signup under a name that was free. *)
Lemma run_script_users
    (secrets : gmap string string)
    (completion : ChatOpenAI -> nat -> list lc_message -> py_result string)
    (clock : nat -> string) (wd : widgets) (w : world) :
  users (session (run_script secrets completion clock wd w).2) = users (session w)
  \/ (users (session w) !! signup_user wd = None
      /\ users (session (run_script secrets completion clock wd w).2)
         = <[signup_user wd := {| password := signup_pass wd;
                                  created_at := clock (clock_reads w) |}]>
             (users (session w))).
Proof.
  destruct (ensure_history_frame (session w)) as (_ & _ & Hus & _).
  destruct (run_script_spec secrets completion clock wd w)
    as [w' Hin Hacc Hs _
       | w' Hin Hacc _ _ _ _ Hs _
       | w' Hin Hacc Hs _
       | w' Hin _ Hs _
       | w' Hin _ _ Hs _
       | w' Hin _ _ _ Hs _
       | w' prompt Hin _ _ Hs _
       | w' prompt app e Hin _ _ _ Hs _
       | w' prompt app r Hin _ _ _ Hs _]; rewrite Hs; auto.
  - destruct (signup_cases (clock (clock_reads w)) (signup_user wd) (signup_pass wd)
                (session w))
      as [[Hu E] | [(Hu & Hl & E) | [(Hu & Hl & Hn & E) | (Hu & Hl & Hn & E)]]];
      rewrite E; auto.
  - left. destruct (ensure_history_frame
                      (login (login_user wd) (login_pass wd) (session w)).2)
      as (_ & _ & Hus' & _). rewrite Hus'.
    destruct (login_cases (login_user wd) (login_pass wd) (session w))
      as [[_ E] | [(u & _ & _ & E) | (u & _ & _ & E)]]; rewrite E; reflexivity.
  - left. destruct (ensure_history_frame
                      (set_history (username (session w)) [] (session w)))
      as (_ & _ & Hus' & _). rewrite Hus'. reflexivity.
Qed.

(** X6. An account, once created, is never changed or removed: whatever
    runs follow, the record stored under a username (password and creation
    time) stays what it is. In particular signing up again under a taken
    name cannot replace a password. *)
Theorem runs_keep_accounts
    (secrets : gmap string string)
    (completion : ChatOpenAI -> nat -> list lc_message -> py_result string)
    (clock : nat -> string) (runs : list widgets) (w : world)
    (u : string) (r : user_record) :
  users (session w) !! u = Some r ->
  users (session (run_all secrets completion clock runs w)) !! u = Some r.
Proof.
  revert w. induction runs as [|wd runs IH]; intros w Hu; [exact Hu |].
  cbn [run_all foldl]. apply IH.
  destruct (run_script_users secrets completion clock wd w) as [-> | [Hfree ->]];
    [exact Hu |].
  rewrite lookup_insert_ne; [exact Hu | congruence].
Qed.

Lemma runs_keep_accounts_witness :
  password <$> users (session Demo.two_users) !! "alice" = Some "secret1"
  /\ password <$>
       users (session (run_all Demo.secrets Demo.completion Demo.clock
                         [Demo.press_signup "alice" "changed1" "changed1";
                          Demo.press_login "alice" "secret1";
                          Demo.say "hello"; Demo.press_logout]
                         Demo.two_users)) !! "alice"
     = Some "secret1".
Proof.
  assert (H : users (session Demo.two_users) !! "alice"
              = Some {| password := "secret1"; created_at := Demo.clock 0 |})
    by (vm_compute; reflexivity).
  split; [rewrite H; reflexivity |].
  rewrite (runs_keep_accounts Demo.secrets Demo.completion Demo.clock _
             Demo.two_users "alice" _ H).
  reflexivity.
Defined.

(** ** What a run changes and what it leaves *)

Lemma transcript_set_history_other (k0 k : option string) (l : list chat_entry)
    (s : session_state) :
  k <> k0 -> transcript (set_history k0 l s) k = transcript s k.
Proof.
  intros Hne. unfold transcript, set_history. simpl.
  by rewrite lookup_insert_ne.
Qed.

Lemma transcript_append_other (k0 k : option string) (e : chat_entry)
    (s : session_state) :
  k <> k0 -> transcript (append_history k0 e s) k = transcript s k.
Proof. intros Hne. unfold append_history. by apply transcript_set_history_other. Qed.

Lemma transcript_login (uname pwd : string) (s : session_state) (k : option string) :
  transcript (login uname pwd s).2 k = transcript s k.
Proof.
  destruct (login_cases uname pwd s)
    as [[_ E] | [(u & _ & _ & E) | (u & _ & _ & E)]]; rewrite E; reflexivity.
Qed.

Lemma transcript_signup (now uname pwd : string) (s : session_state)
    (k : option string) :
  histories_owned s ->
  transcript (signup now uname pwd s).2 k = transcript s k.
Proof.
  intros Hh.
  destruct (signup_cases now uname pwd s)
    as [[Hu E] | [(Hu & Hl & E) | [(Hu & Hl & Hn & E) | (Hu & Hl & Hn & E)]]];
    rewrite E; try reflexivity.
  unfold transcript. simpl.
  destruct (decide (k = Some uname)) as [-> | Hne].
  - rewrite lookup_insert_eq.
    destruct (chat_histories s !! Some uname) as [l|] eqn:Hk; [| reflexivity].
    apply Hh in Hk. simpl in Hk. rewrite Hu in Hk. by destruct Hk.
  - by rewrite lookup_insert_ne.
Qed.

(** X7. One user's run never touches another user's history. If every
    history belongs to a registered user, then after any run all histories
    read as before, except possibly the one of the user who was logged in
    when the run began; a run of an anonymous session (signup and login
    included) changes what no history reads. *)
Theorem run_touches_only_own_history
    (secrets : gmap string string)
    (completion : ChatOpenAI -> nat -> list lc_message -> py_result string)
    (clock : nat -> string) (wd : widgets) (w : world) (k : option string) :
  histories_owned (session w) ->
  (logged_in (session w) = true -> k <> username (session w)) ->
  transcript (session (run_script secrets completion clock wd w).2) k
  = transcript (session w) k.
Proof.
  intros Hh Hk.
  destruct (run_script_spec secrets completion clock wd w)
    as [w' Hin Hacc Hs _
       | w' Hin Hacc _ _ _ _ Hs _
       | w' Hin Hacc Hs _
       | w' Hin _ Hs _
       | w' Hin _ _ Hs _
       | w' Hin _ _ _ Hs _
       | w' prompt Hin _ _ Hs _
       | w' prompt app e Hin _ _ _ Hs _
       | w' prompt app r Hin _ _ _ Hs _]; rewrite Hs;
    try specialize (Hk Hin).
  - reflexivity.
  - by apply transcript_signup.
  - by rewrite transcript_ensure_history, transcript_login.
  - reflexivity.
  - by rewrite transcript_ensure_history, transcript_set_history_other.
  - by rewrite transcript_ensure_history.
  - by rewrite transcript_append_other, transcript_ensure_history.
  - by rewrite transcript_append_other, transcript_ensure_history.
  - by rewrite !transcript_append_other, transcript_ensure_history.
Qed.

Lemma run_touches_only_own_history_witness :
  histories_owned (session Demo.alice_one_turn)
  /\ username (session Demo.alice_one_turn) = Some "alice"
  /\ transcript (session (run_script Demo.secrets Demo.completion Demo.clock
                            (Demo.say "again") Demo.alice_one_turn).2) (Some "bob")
     = transcript (session Demo.alice_one_turn) (Some "bob").
Proof.
  destruct demo_worlds_ok as (_ & _ & (_ & Hh & _)).
  assert (Hu : username (session Demo.alice_one_turn) = Some "alice")
    by (vm_compute; reflexivity).
  split; [exact Hh |]. split; [exact Hu |].
  apply (run_touches_only_own_history Demo.secrets Demo.completion Demo.clock
           (Demo.say "again") Demo.alice_one_turn (Some "bob") Hh).
  intros _. rewrite Hu. discriminate.
Defined.



(** X9. A logged-in session stays logged in as the same user through
    every run in which "Logout" is not pressed: clearing the history,
    submitting input, a failing model and a missing API key change neither
    the flag, nor the bound user, nor the credential store. *)
Theorem logged_in_run_keeps_user
    (secrets : gmap string string)
    (completion : ChatOpenAI -> nat -> list lc_message -> py_result string)
    (clock : nat -> string) (wd : widgets) (w : world) :
  logged_in (session w) = true ->
  logout_btn wd = false ->
  logged_in (session (run_script secrets completion clock wd w).2) = true
  /\ username (session (run_script secrets completion clock wd w).2)
     = username (session w)
  /\ users (session (run_script secrets completion clock wd w).2)
     = users (session w).
Proof.
  intros Hlogged Hnolog.
  destruct (ensure_history_frame (session w)) as (Hl & Hn & Hus & _).
  destruct (ensure_history_frame (set_history (username (session w)) [] (session w)))
    as (Hl' & Hn' & Hus' & _).
  destruct (run_script_spec secrets completion clock wd w)
    as [w' Hin Hacc Hs _
       | w' Hin Hacc _ _ _ _ Hs _
       | w' Hin Hacc Hs _
       | w' Hin Hout Hs _
       | w' Hin Hout Hclear Hs _
       | w' Hin _ _ _ Hs _
       | w' prompt Hin Hsub _ Hs _
       | w' prompt app e Hin Hsub _ _ Hs _
       | w' prompt app r Hin Hsub _ _ Hs _]; rewrite Hs; try congruence;
    simpl; rewrite ?Hl', ?Hn', ?Hus', ?Hl, ?Hn, ?Hus; auto.
Qed.

Lemma logged_in_run_keeps_user_witness :
  logged_in (session Demo.alice_one_turn) = true
  /\ logged_in (session (run_script Demo.no_secrets Demo.unreachable Demo.clock
                           Demo.press_clear Demo.alice_one_turn).2) = true
  /\ username (session (run_script Demo.no_secrets Demo.unreachable Demo.clock
                          Demo.press_clear Demo.alice_one_turn).2)
     = username (session Demo.alice_one_turn).
Proof.
  assert (H : logged_in (session Demo.alice_one_turn) = true)
    by (vm_compute; reflexivity).
  destruct (logged_in_run_keeps_user Demo.no_secrets Demo.unreachable Demo.clock
              Demo.press_clear Demo.alice_one_turn H eq_refl) as (H1 & H2 & _).
  split; [exact H |]. split; [exact H1 | exact H2].
Defined.

(** X10. An anonymous session gets logged in by a run exactly when
    "Login" is pressed with both fields filled and [login] accepts them;
    it is then bound to the username typed. In every other run, signup
    included, it stays anonymous and bound to whom it was. *)
Theorem anonymous_run_logs_in_iff
    (secrets : gmap string string)
    (completion : ChatOpenAI -> nat -> list lc_message -> py_result string)
    (clock : nat -> string) (wd : widgets) (w : world) :
  logged_in (session w) = false ->
  logged_in (session (run_script secrets completion clock wd w).2)
  = login_accepted wd (session w)
  /\ username (session (run_script secrets completion clock wd w).2)
     = (if login_accepted wd (session w) then Some (login_user wd)
        else username (session w)).
Proof.
  intros Hanon.
  destruct (run_script_spec secrets completion clock wd w)
    as [w' Hin Hacc Hs _
       | w' Hin Hacc _ _ _ _ Hs _
       | w' Hin Hacc Hs _
       | w' Hin Hout Hs _
       | w' Hin Hout Hclear Hs _
       | w' Hin _ _ _ Hs _
       | w' prompt Hin Hsub _ Hs _
       | w' prompt app e Hin Hsub _ _ Hs _
       | w' prompt app r Hin Hsub _ _ Hs _]; try congruence; rewrite Hs, Hacc.
  - by rewrite Hanon.
  - destruct (signup_keeps_login (clock (clock_reads w)) (signup_user wd)
                (signup_pass wd) (session w)) as [-> ->]. by rewrite Hanon.
  - destruct (ensure_history_frame
                (login (login_user wd) (login_pass wd) (session w)).2)
      as (-> & -> & _).
    unfold login_accepted in Hacc. apply andb_true_iff in Hacc as [_ Hacc].
    by rewrite (login_success_state _ _ _ Hacc).
Qed.

Lemma anonymous_run_logs_in_iff_witness :
  logged_in (session Demo.two_users) = false
  /\ logged_in (session (run_script Demo.secrets Demo.completion Demo.clock
                           (Demo.press_login "alice" "secret1") Demo.two_users).2)
     = true
  /\ logged_in (session (run_script Demo.secrets Demo.completion Demo.clock
                           (Demo.press_login "alice" "") Demo.two_users).2)
     = false.
Proof.
  assert (H : logged_in (session Demo.two_users) = false) by (vm_compute; reflexivity).
  split; [exact H |]. split.
  - rewrite (proj1 (anonymous_run_logs_in_iff Demo.secrets Demo.completion
                      Demo.clock (Demo.press_login "alice" "secret1")
                      Demo.two_users H)).
    vm_compute. reflexivity.
  - rewrite (proj1 (anonymous_run_logs_in_iff Demo.secrets Demo.completion
                      Demo.clock (Demo.press_login "alice" "")
                      Demo.two_users H)).
    vm_compute. reflexivity.
Defined.

(** ** Completion calls and how a run ends *)

(** X11. A run makes at most one completion call, and makes one only
    when a logged-in user submits a non-empty input, pressing no button,
    with a graph cached or an API key to build one; the call then carries
    the messages checkpointed for the user's thread followed by the
    messages of the user's history, the new input last. Logging in,
    signing up, logging out, clearing and viewing never reach the model. *)
Theorem run_makes_at_most_one_call
    (secrets : gmap string string)
    (completion : ChatOpenAI -> nat -> list lc_message -> py_result string)
    (clock : nat -> string) (wd : widgets) (w : world) :
  completion_calls (trace (run_script secrets completion clock wd w).2)
  = completion_calls (trace w)
  \/ exists prompt app,
       logged_in (session w) = true
       /\ submits wd prompt
       /\ graph_for secrets w = Some app
       /\ completion_calls (trace (run_script secrets completion clock wd w).2)
          = completion_calls (trace w)
            ++ [default [] (memory app !! username (session w))
                ++ prepare_messages (transcript (session w) (username (session w))
                                     ++ [user_entry clock w prompt])].
Proof.
  destruct (run_script_spec secrets completion clock wd w)
    as [w' Hin Hacc Hs Hc
       | w' Hin Hacc _ _ _ _ Hs Hc
       | w' Hin Hacc Hs Hc
       | w' Hin Hout Hs Hc
       | w' Hin Hout Hclear Hs Hc
       | w' Hin _ _ _ Hs Hc
       | w' prompt Hin Hsub _ Hs Hc
       | w' prompt app e Hin Hsub Happ _ Hs Hc
       | w' prompt app r Hin Hsub Happ _ Hs Hc]; auto;
    right; exists prompt, app; auto.
Qed.


(** ** The login and signup forms *)

(** X13. The login form asks for both fields: when "Login" is pressed in
    an anonymous session with the username or the password left empty,
    [login] is not called; the run shows "Please enter both username and
    password" and the invitation, and changes nothing else. *)
Theorem login_form_requires_both_fields
    (secrets : gmap string string)
    (completion : ChatOpenAI -> nat -> list lc_message -> py_result string)
    (clock : nat -> string) (wd : widgets) (w : world) :
  logged_in (session w) = false ->
  login_btn wd = true ->
  signup_btn wd = false ->
  login_user wd = "" \/ login_pass wd = "" ->
  run_script secrets completion clock wd w =
    (inl (),
     {| session := session w; llm_cache := llm_cache w;
        graph_cache := graph_cache w; clock_reads := clock_reads w;
        trace := trace w ++
          [st_error "Please enter both username and password";
           st_info please_login] |}).
Proof.
  intros Hin Hl Hs Hempty.
  destruct w as [[li un us ch] lc gc n t], wd; simpl in *; subst.
  unfold run_script, main, sidebar, login_tab, signup_tab, when, bind,
    get_session, emit, ret. simpl.
  assert (Hf : truthy login_user0 && truthy login_pass0 = false).
  { destruct Hempty as [-> | ->]; [reflexivity | apply andb_false_r]. }
  rewrite Hf. simpl. rewrite <- !app_assoc. reflexivity.
Qed.

Lemma login_form_requires_both_fields_witness :
  logged_in (session Demo.two_users) = false
  /\ run_script Demo.secrets Demo.completion Demo.clock
       (Demo.press_login "alice" "") Demo.two_users
     = (inl (),
        {| session := session Demo.two_users;
           llm_cache := llm_cache Demo.two_users;
           graph_cache := graph_cache Demo.two_users;
           clock_reads := clock_reads Demo.two_users;
           trace := trace Demo.two_users ++
             [st_error "Please enter both username and password";
              st_info please_login] |}).
Proof.
  assert (H : logged_in (session Demo.two_users) = false) by (vm_compute; reflexivity).
  split; [exact H |].
  exact (login_form_requires_both_fields Demo.secrets Demo.completion Demo.clock
           (Demo.press_login "alice" "") Demo.two_users H eq_refl eq_refl
           (or_intror eq_refl)).
Defined.

(** X14. A valid submission of the signup form creates the account and
    does not log in: in an anonymous session, with a non-empty free
    username, a password of at least 6 characters and an equal
    confirmation, the run calls [signup] once, stores the password with the
    clock reading as creation time, gives the user an empty history, shows
    "Account created successfully" and leaves the session anonymous. *)
Theorem signup_form_creates_account
    (secrets : gmap string string)
    (completion : ChatOpenAI -> nat -> list lc_message -> py_result string)
    (clock : nat -> string) (wd : widgets) (w : world) :
  logged_in (session w) = false ->
  login_btn wd = false ->
  signup_btn wd = true ->
  signup_user wd <> "" ->
  users (session w) !! signup_user wd = None ->
  6 <= String.length (signup_pass wd) ->
  signup_pass_confirm wd = signup_pass wd ->
  run_script secrets completion clock wd w =
    (inl (),
     {| session :=
          {| logged_in := false; username := username (session w);
             users := <[signup_user wd :=
                          {| password := signup_pass wd;
                             created_at := clock (clock_reads w) |}]>
                        (users (session w));
             chat_histories := <[Some (signup_user wd) := []]>
                                 (chat_histories (session w)) |};
        llm_cache := llm_cache w; graph_cache := graph_cache w;
        clock_reads := S (clock_reads w);
        trace := trace w ++
          [called_signup (signup_user wd) (signup_pass wd);
           st_success "Account created successfully";
           st_info please_login] |}).
Proof.
  intros Hin Hl Hs Hname Hfree Hlen Hconf.
  destruct w as [[li un us ch] lc gc n t], wd; simpl in *; subst.
  unfold run_script, main, sidebar, login_tab, signup_tab, call_signup, when,
    bind, get_session, emit, ret. simpl.
  assert (Hu : truthy signup_user0 = true) by (by apply truthy_nonempty).
  assert (Hp : truthy signup_pass0 = true)
    by (destruct signup_pass0; simpl in *; [lia | done]).
  rewrite Hu, Hp, String.eqb_refl. simpl.
  destruct (signup_cases (clock n) signup_user0 signup_pass0
              {| logged_in := false; username := un; users := us;
                 chat_histories := ch |})
    as [[[u Hx] E] | [(Hx & Hy & E) | [(Hx & Hy & Hz & E) | (Hx & Hy & Hz & E)]]];
    simpl in *; try congruence; try lia.
  rewrite E. simpl. rewrite <- !app_assoc. reflexivity.
Qed.

Lemma signup_form_creates_account_witness :
  logged_in (session Demo.two_users) = false
  /\ users (session Demo.two_users) !! "carol" = None
  /\ (run_script Demo.secrets Demo.completion Demo.clock
        (Demo.press_signup "carol" "s3cret" "s3cret") Demo.two_users).1 = inl ()
  /\ users (session (run_script Demo.secrets Demo.completion Demo.clock
                       (Demo.press_signup "carol" "s3cret" "s3cret")
                       Demo.two_users).2) !! "carol"
     = Some {| password := "s3cret";
               created_at := Demo.clock (clock_reads Demo.two_users) |}.
Proof.
  assert (H1 : logged_in (session Demo.two_users) = false) by (vm_compute; reflexivity).
  assert (H2 : users (session Demo.two_users) !! "carol" = None)
    by (vm_compute; reflexivity).
  assert (H3 : "carol" <> "") by discriminate.
  assert (H4 : 6 <= String.length "s3cret") by (simpl; lia).
  split; [exact H1 |]. split; [exact H2 |].
  rewrite (signup_form_creates_account Demo.secrets Demo.completion Demo.clock
             (Demo.press_signup "carol" "s3cret" "s3cret") Demo.two_users
             H1 eq_refl eq_refl H3 H2 H4 eq_refl).
  split; [reflexivity |]. cbn [snd session users]. apply lookup_insert_eq.
Defined.

(** X15. A successful submission of the login form opens the chat page:
    in an anonymous session, with both fields filled and the password
    stored for the username, the run calls [login] once, shows "Logged in
    successfully", reruns the script and ends on the chat page of that
    user, whose history is shown as it was and is created empty if it did
    not exist. *)
Theorem login_form_opens_chat
    (secrets : gmap string string)
    (completion : ChatOpenAI -> nat -> list lc_message -> py_result string)
    (clock : nat -> string) (wd : widgets) (w : world) (u : user_record) :
  logged_in (session w) = false ->
  login_btn wd = true ->
  login_user wd <> "" ->
  login_pass wd <> "" ->
  users (session w) !! login_user wd = Some u ->
  password u = login_pass wd ->
  run_script secrets completion clock wd w =
    (inl (),
     entered
       {| session :=
            {| logged_in := true; username := Some (login_user wd);
               users := users (session w);
               chat_histories := chat_histories (session w) |};
          llm_cache := llm_cache w; graph_cache := graph_cache w;
          clock_reads := clock_reads w;
          trace := trace w ++
            [called_login (login_user wd) (login_pass wd);
             st_success "Logged in successfully"] |}).
Proof.
  intros Hin Hl Hname Hpass Hu Hp.
  assert (E : main secrets completion clock wd w =
    (inr Rerun,
     {| session :=
          {| logged_in := true; username := Some (login_user wd);
             users := users (session w);
             chat_histories := chat_histories (session w) |};
        llm_cache := llm_cache w; graph_cache := graph_cache w;
        clock_reads := clock_reads w;
        trace := trace w ++
          [called_login (login_user wd) (login_pass wd);
           st_success "Logged in successfully"] |})).
  { apply truthy_nonempty in Hname, Hpass.
    destruct w as [[li un us ch] lc gc n t], wd; simpl in *; subst.
    unfold main, sidebar, login_tab, call_login, when, bind, get_session,
      put_session, emit, ret, raise. simpl.
    rewrite Hname, Hpass. simpl. unfold login. simpl. rewrite Hu.
    rewrite String.eqb_refl. simpl. rewrite <- !app_assoc. reflexivity. }
  unfold run_script. rewrite E.
  by rewrite main_released_logged_in.
Qed.

Lemma login_form_opens_chat_witness :
  logged_in (session Demo.two_users) = false
  /\ users (session Demo.two_users) !! "alice"
     = Some {| password := "secret1"; created_at := Demo.clock 0 |}
  /\ (run_script Demo.secrets Demo.completion Demo.clock
        (Demo.press_login "alice" "secret1") Demo.two_users).1 = inl ()
  /\ username (session (run_script Demo.secrets Demo.completion Demo.clock
                          (Demo.press_login "alice" "secret1") Demo.two_users).2)
     = Some "alice".
Proof.
  assert (H1 : logged_in (session Demo.two_users) = false) by (vm_compute; reflexivity).
  assert (H2 : users (session Demo.two_users) !! "alice"
               = Some {| password := "secret1"; created_at := Demo.clock 0 |})
    by (vm_compute; reflexivity).
  split; [exact H1 |]. split; [exact H2 |].
  rewrite (login_form_opens_chat Demo.secrets Demo.completion Demo.clock
             (Demo.press_login "alice" "secret1") Demo.two_users _
             H1 eq_refl ltac:(discriminate) ltac:(discriminate) H2 eq_refl).
  split; [reflexivity |]. cbn [snd entered session].
  destruct (ensure_history_frame
              {| logged_in := true; username := Some "alice";
                 users := users (session Demo.two_users);
                 chat_histories := chat_histories (session Demo.two_users) |})
    as (_ & Hn & _).
  exact Hn.
Defined.

(** ** Conversation turns, in general *)

Lemma turn_returned_witness :
  logged_in (session Demo.alice_in) = true
  /\ username (session Demo.alice_in) = Some "alice"
  /\ submits (Demo.say "hello") "hello"
  /\ exists w',
       run_script Demo.secrets Demo.completion Demo.clock (Demo.say "hello")
                  Demo.alice_in = (inl (), w')
       /\ transcript (session w') (Some "alice")
          = transcript (session Demo.alice_in) (Some "alice")
            ++ [user_entry Demo.clock Demo.alice_in "hello";
                assistant_entry Demo.clock Demo.alice_in "reply 0"].
Proof.
  assert (H1 : logged_in (session Demo.alice_in) = true) by (vm_compute; reflexivity).
  assert (H2 : username (session Demo.alice_in) = Some "alice")
    by (vm_compute; reflexivity).
  assert (H3 : submits (Demo.say "hello") "hello")
    by (repeat split; discriminate).
  assert (H4 : graph_for Demo.secrets Demo.alice_in
               = Some {| node_llm := {| model := "gpt-4o-mini"; temperature := 7 # 10;
                                        openai_api_key := "sk-test" |};
                         memory := ∅ |}) by (vm_compute; reflexivity).
  repeat (split; [assumption |]).
  destruct (turn_returned Demo.secrets Demo.completion Demo.clock
              (Demo.say "hello") Demo.alice_in "alice" "hello" "reply 0" _
              H1 H2 H3 H4 eq_refl)
    as (w' & Hrun & _ & Htr & _).
  exists w'. split; [exact Hrun | exact Htr].
Defined.

(** X17. Once the checkpointer holds messages for a user's thread, the
    completion call of that user's turn carries more than the history:
    the saved messages come first, then the messages of the whole history
    with the new input, so the payload is never the history's messages
    alone. This holds whether the call then returns or raises. *)
Theorem checkpointed_turn_sends_more
    (secrets : gmap string string)
    (completion : ChatOpenAI -> nat -> list lc_message -> py_result string)
    (clock : nat -> string) (wd : widgets) (w : world)
    (u prompt : string) (app : compiled_graph) (saved : list lc_message) :
  logged_in (session w) = true ->
  username (session w) = Some u ->
  submits wd prompt ->
  graph_for secrets w = Some app ->
  memory app !! Some u = Some saved ->
  saved <> [] ->
  completion_calls (trace (run_script secrets completion clock wd w).2)
  = completion_calls (trace w)
    ++ [saved ++ prepare_messages (transcript (session w) (Some u)
                                   ++ [user_entry clock w prompt])]
  /\ saved ++ prepare_messages (transcript (session w) (Some u)
                                ++ [user_entry clock w prompt])
     <> prepare_messages (transcript (session w) (Some u)
                          ++ [user_entry clock w prompt]).
Proof.
  intros Hlogged Hu Hsubmits Hgraph Hsaved Hne.
  split.
  - assert (Hp : forall app',
               Some app' = Some app ->
               turn_payload clock app' (username (session w)) prompt w
               = saved ++ prepare_messages (transcript (session w) (Some u)
                                            ++ [user_entry clock w prompt])).
    { intros app' [= ->]. unfold turn_payload. by rewrite Hu, Hsaved. }
    assert (Hp' : forall prompt', submits wd prompt' -> prompt' = prompt).
    { intros p (_ & _ & Hp1 & _). destruct Hsubmits as (_ & _ & Hp2 & _). congruence. }
    destruct (run_script_spec secrets completion clock wd w)
      as [w' Hin Hacc Hs Hc
         | w' Hin Hacc _ _ _ _ Hs Hc
         | w' Hin Hacc Hs Hc
         | w' Hin Hout Hs Hc
         | w' Hin Hout Hclear Hs Hc
         | w' Hin Hout Hclear Hnone Hs Hc
         | w' prompt' Hin Hsub Happ Hs Hc
         | w' prompt' app' e Hin Hsub Happ _ Hs Hc
         | w' prompt' app' r Hin Hsub Happ _ Hs Hc]; try congruence.
    + destruct Hsubmits as (? & _). congruence.
    + destruct Hsubmits as (_ & ? & _). congruence.
    + destruct (Hnone prompt Hsubmits).
    + rewrite Hc. rewrite (Hp' _ Hsub) in *. rewrite (Hp app') by congruence.
      reflexivity.
    + rewrite Hc. rewrite (Hp' _ Hsub) in *. rewrite (Hp app') by congruence.
      reflexivity.
  - intros Heq. apply (f_equal length) in Heq. rewrite length_app in Heq.
    destruct saved; [done | simpl in Heq; lia].
Qed.


Lemma checkpointed_turn_sends_more_witness :
  logged_in (session Demo.alice_one_turn) = true
  /\ username (session Demo.alice_one_turn) = Some "alice"
  /\ submits (Demo.say "again") "again"
  /\ completion_calls
       (trace (run_script Demo.secrets Demo.completion Demo.clock
                 (Demo.say "again") Demo.alice_one_turn).2)
     = completion_calls (trace Demo.alice_one_turn)
       ++ [[HumanMessage "hello"; AIMessage "reply 0"]
           ++ prepare_messages
                (transcript (session Demo.alice_one_turn) (Some "alice")
                 ++ [user_entry Demo.clock Demo.alice_one_turn "again"])].
Proof.
  assert (H1 : logged_in (session Demo.alice_one_turn) = true)
    by (vm_compute; reflexivity).
  assert (H2 : username (session Demo.alice_one_turn) = Some "alice")
    by (vm_compute; reflexivity).
  assert (H3 : submits (Demo.say "again") "again")
    by (repeat split; discriminate).
  split; [exact H1 |]. split; [exact H2 |]. split; [exact H3 |].
  assert (H4 : graph_for Demo.secrets Demo.alice_one_turn
               = Some {| node_llm := {| model := "gpt-4o-mini"; temperature := 7 # 10;
                                        openai_api_key := "sk-test" |};
                         memory := {[ Some "alice" :=
                                        [HumanMessage "hello"; AIMessage "reply 0"] ]} |})
    by (vm_compute; reflexivity).
  exact (proj1 (checkpointed_turn_sends_more Demo.secrets Demo.completion
                  Demo.clock (Demo.say "again") Demo.alice_one_turn
                  "alice" "again" _ [HumanMessage "hello"; AIMessage "reply 0"]
                  H1 H2 H3 H4 (lookup_singleton_eq _ _) ltac:(discriminate))).
Defined.

(** ** The cached graph and the secrets *)

Section Cached.

Variable completion : ChatOpenAI -> nat -> list lc_message -> py_result string.
Variable clock : nat -> string.

Lemma chat_turn_cached (secrets1 secrets2 : gmap string string)
    (k : option string) (prompt : string) (w : world) :
  is_Some (graph_cache w) ->
  chat_turn secrets1 completion clock k prompt w
  = chat_turn secrets2 completion clock k prompt w.
Proof.
  intros [app Happ]. destruct w as [s lc gc n t]. simpl in Happ. subst.
  unfold chat_turn, create_graph, bind, datetime_now, get_session, put_session,
    emit. simpl. reflexivity.
Qed.

Lemma main_cached (secrets1 secrets2 : gmap string string)
    (wd : widgets) (w : world) :
  is_Some (graph_cache w) ->
  main secrets1 completion clock wd w = main secrets2 completion clock wd w.
Proof.
  intros Hcache.
  assert (Hcase : logged_in (session w) = true \/ logged_in (session w) = false)
    by (destruct (logged_in (session w)); auto).
  destruct Hcase as [Hin | Hin].
  - destruct (logout_btn wd) eqn:Hout; [by rewrite !main_logout |].
    destruct (clear_btn wd) eqn:Hclear; [by rewrite !main_clear |].
    rewrite !main_logged_in by assumption.
    destruct (chat_input wd) as [prompt|]; [| reflexivity].
    destruct (truthy prompt); [| reflexivity].
    unfold when. by apply chat_turn_cached.
  - rewrite !main_anonymous_unfold by assumption.
    destruct (login_tab_cases wd w)
      as [(_ & _ & _ & _ & w1 & E & _) | (w1 & E & Hs & _)]; rewrite E;
      [reflexivity |].
    destruct (signup_tab_cases clock wd w1) as (w2 & E2 & _ & _ & _ & Hs2).
    rewrite E2.
    assert (Hin2 : logged_in (session w2) = false).
    { destruct Hs2 as [-> | (_ & _ & _ & _ & ->)].
      - by rewrite Hs.
      - destruct (signup_keeps_login (clock (clock_reads w1)) (signup_user wd)
                    (signup_pass wd) (session w1)) as [-> _]. by rewrite Hs. }
    by rewrite Hin2.
Qed.

End Cached.

(** Once a graph is cached, a run does not depend on the secrets. *)
Lemma cached_run_same
    (secrets1 secrets2 : gmap string string)
    (completion : ChatOpenAI -> nat -> list lc_message -> py_result string)
    (clock : nat -> string) (wd : widgets) (w : world) :
  is_Some (graph_cache w) ->
  run_script secrets1 completion clock wd w
  = run_script secrets2 completion clock wd w.
Proof.
  intros Hcache. unfold run_script.
  rewrite (main_cached completion clock secrets1 secrets2 wd w Hcache).
  destruct (main secrets2 completion clock wd w) as [[[]|[]] w']; reflexivity.
Qed.

Lemma graph_for_cached (secrets : gmap string string) (w : world) :
  is_Some (graph_cache w) -> graph_for secrets w = graph_cache w.
Proof. intros [app Happ]. unfold graph_for. by rewrite Happ. Qed.

(** A cached graph stays cached. *)
Lemma run_keeps_graph_cached
    (secrets : gmap string string)
    (completion : ChatOpenAI -> nat -> list lc_message -> py_result string)
    (clock : nat -> string) (wd : widgets) (w : world) :
  is_Some (graph_cache w) ->
  is_Some (graph_cache (run_script secrets completion clock wd w).2).
Proof.
  intros Hcache.
  destruct (run_script_spec secrets completion clock wd w)
    as [w' _ _ _ _ Hg
       | w' _ _ _ _ _ _ _ _ Hg
       | w' _ _ _ _ Hg
       | w' _ _ _ _ Hg
       | w' _ _ _ _ _ Hg
       | w' _ _ _ _ _ _ Hg
       | w' prompt _ _ Happ _ _ Hg
       | w' prompt app e _ _ _ _ _ _ Hg
       | w' prompt app r _ _ _ _ _ _ Hg]; rewrite Hg; try assumption;
    try by eexists.
  rewrite graph_for_cached in Happ by assumption.
  rewrite Happ in Hcache. by destruct Hcache.
Qed.

(** X18. The API key is read only to build the client: once a graph is
    cached it stays cached, and no later run depends on the secrets. With
    the same interactions, model and clock, every sequence of runs leaves
    the same world whatever the secrets hold, a removed or changed key
    included. *)
Theorem cached_runs_ignore_secrets
    (secrets1 secrets2 : gmap string string)
    (completion : ChatOpenAI -> nat -> list lc_message -> py_result string)
    (clock : nat -> string) (runs : list widgets) (w : world) :
  is_Some (graph_cache w) ->
  run_all secrets1 completion clock runs w = run_all secrets2 completion clock runs w
  /\ is_Some (graph_cache (run_all secrets1 completion clock runs w)).
Proof.
  revert w. induction runs as [|wd runs IH]; intros w Hcache; [by split |].
  cbn [run_all foldl].
  rewrite (cached_run_same secrets1 secrets2 completion clock wd w Hcache).
  apply IH. by apply run_keeps_graph_cached.
Qed.

Lemma cached_runs_ignore_secrets_witness :
  is_Some (graph_cache Demo.alice_one_turn)
  /\ run_all Demo.no_secrets Demo.completion Demo.clock
       [Demo.say "again"; Demo.press_logout] Demo.alice_one_turn
     = run_all Demo.secrets Demo.completion Demo.clock
         [Demo.say "again"; Demo.press_logout] Demo.alice_one_turn.
Proof.
  assert (H : is_Some (graph_cache Demo.alice_one_turn)).
  { destruct (graph_cache Demo.alice_one_turn) eqn:E; [by eexists |].
    vm_compute in E. discriminate E. }
  split; [exact H |].
  exact (proj1 (cached_runs_ignore_secrets Demo.no_secrets Demo.secrets
                  Demo.completion Demo.clock [Demo.say "again"; Demo.press_logout]
                  Demo.alice_one_turn H)).
Defined.

(** ** The checkpointed threads *)

Lemma thread_messages_graph_for (secrets : gmap string string) (w : world)
    (app : compiled_graph) (k : option string) :
  graph_for secrets w = Some app ->
  thread_messages w k = default [] (memory app !! k).
Proof.
  unfold graph_for, thread_messages. destruct (graph_cache w) as [g|].
  - by intros [= ->].
  - destruct (client_for secrets w); simpl; [| discriminate].
    intros [= <-]. simpl. by rewrite lookup_empty.
Qed.

Lemma thread_messages_no_graph (secrets : gmap string string) (w : world)
    (k : option string) :
  graph_for secrets w = None -> thread_messages w k = [].
Proof.
  unfold graph_for, thread_messages. by destruct (graph_cache w).
Qed.

(** What a run does to the thread of [k]: nothing, or, for the thread of
    the logged-in user, an extension. *)
Lemma run_script_thread
    (secrets : gmap string string)
    (completion : ChatOpenAI -> nat -> list lc_message -> py_result string)
    (clock : nat -> string) (wd : widgets) (w : world) (k : option string) :
  thread_messages (run_script secrets completion clock wd w).2 k = thread_messages w k
  \/ (logged_in (session w) = true /\ k = username (session w)
      /\ exists more,
           thread_messages (run_script secrets completion clock wd w).2 k
           = thread_messages w k ++ more).
Proof.
  destruct (run_script_spec secrets completion clock wd w)
    as [w' _ _ _ _ Hg
       | w' _ _ _ _ _ _ _ _ Hg
       | w' _ _ _ _ Hg
       | w' _ _ _ _ Hg
       | w' _ _ _ _ _ Hg
       | w' _ _ _ _ _ _ Hg
       | w' prompt _ _ Happ _ _ Hg
       | w' prompt app e Hin _ Happ _ _ _ Hg
       | w' prompt app r Hin _ Happ _ _ _ Hg];
    unfold thread_messages at 1; rewrite Hg; try (by left).
  - left. by rewrite (thread_messages_no_graph secrets).
  - rewrite (thread_messages_graph_for secrets w app) by assumption.
    cbv beta iota. cbn [memory].
    destruct (decide (username (session w) = k)) as [<- | Hne].
    + right. repeat (split; [done |]). unfold thread_messages. rewrite Hg.
      cbv beta iota. cbn [memory]. rewrite lookup_insert_eq. simpl.
      unfold turn_payload. by eexists.
    + left. by rewrite lookup_insert_ne.
  - rewrite (thread_messages_graph_for secrets w app) by assumption.
    cbv beta iota. cbn [memory].
    destruct (decide (username (session w) = k)) as [<- | Hne].
    + right. repeat (split; [done |]). unfold thread_messages. rewrite Hg.
      cbv beta iota. cbn [memory]. rewrite lookup_insert_eq. simpl.
      unfold turn_payload. rewrite <- app_assoc. by eexists.
    + left. by rewrite lookup_insert_ne.
Qed.

(** X20. Threads are kept apart: a run changes at most the checkpointed
    thread of the user who is logged in when it begins; the thread of
    every other user, and every thread when the session is anonymous, holds
    afterwards the messages it held before. *)
Theorem run_touches_only_own_thread
    (secrets : gmap string string)
    (completion : ChatOpenAI -> nat -> list lc_message -> py_result string)
    (clock : nat -> string) (wd : widgets) (w : world) (k : option string) :
  (logged_in (session w) = true -> k <> username (session w)) ->
  thread_messages (run_script secrets completion clock wd w).2 k
  = thread_messages w k.
Proof.
  intros Hk.
  destruct (run_script_thread secrets completion clock wd w k)
    as [E | (Hin & Heq & _)]; [exact E |].
  destruct (Hk Hin Heq).
Qed.

Lemma run_touches_only_own_thread_witness :
  username (session Demo.alice_one_turn) = Some "alice"
  /\ thread_messages Demo.alice_one_turn (Some "alice")
     = [HumanMessage "hello"; AIMessage "reply 0"]
  /\ thread_messages
       (run_script Demo.secrets Demo.completion Demo.clock (Demo.say "again")
                   Demo.alice_one_turn).2 (Some "bob")
     = thread_messages Demo.alice_one_turn (Some "bob").
Proof.
  assert (Hu : username (session Demo.alice_one_turn) = Some "alice")
    by (vm_compute; reflexivity).
  split; [exact Hu |]. split; [vm_compute; reflexivity |].
  apply (run_touches_only_own_thread Demo.secrets Demo.completion Demo.clock
           (Demo.say "again") Demo.alice_one_turn (Some "bob")).
  intros _. rewrite Hu. discriminate.
Defined.

(** X21. The checkpointer never forgets: through any sequence of runs,
    what a thread holds only grows at its end. Neither "Clear Chat
    History", nor logging out, nor logging in again removes a message from
    a thread, so messages of a cleared history stay part of what later
    turns send. *)
Theorem threads_only_grow
    (secrets : gmap string string)
    (completion : ChatOpenAI -> nat -> list lc_message -> py_result string)
    (clock : nat -> string) (runs : list widgets) (w : world) (k : option string) :
  thread_messages w k `prefix_of` thread_messages (run_all secrets completion clock runs w) k.
Proof.
  revert w. induction runs as [|wd runs IH]; intros w; [reflexivity |].
  cbn [run_all foldl]. etransitivity; [| apply IH].
  destruct (run_script_thread secrets completion clock wd w k)
    as [-> | (_ & _ & more & ->)]; [reflexivity | by apply prefix_app_r].
Qed.

(** ** Preparing the messages *)


(** ** Instances *)

Lemma signup_succeeds_iff_witness :
  (signup "t" "carol" "s3cret" (session Demo.two_users)).1.1 = true
  /\ (signup "t" "" "s3cret" (session Demo.two_users)).1.1 = false
  /\ (signup "t" "carol" "short" (session Demo.two_users)).1.1 = false
  /\ (signup "t" "alice" "s3cret" (session Demo.two_users)).1.1 = false.
Proof.
  split; [| split; [| split]].
  - apply (signup_succeeds_iff "t" "carol" "s3cret" (session Demo.two_users)).
    split; [discriminate |]. split; [vm_compute; reflexivity | simpl; lia].
  - apply not_true_is_false. intros H.
    apply (signup_succeeds_iff "t" "" "s3cret" (session Demo.two_users)) in H
      as (Hne & _). by apply Hne.
  - apply not_true_is_false. intros H.
    apply (signup_succeeds_iff "t" "carol" "short" (session Demo.two_users)) in H
      as (_ & _ & Hlen). simpl in Hlen. lia.
  - apply not_true_is_false. intros H.
    apply (signup_succeeds_iff "t" "alice" "s3cret" (session Demo.two_users)) in H
      as (_ & Hfree & _). vm_compute in Hfree. discriminate Hfree.
Defined.

Lemma signup_rejections_witness :
  (signup "t" "carol" "" (session Demo.two_users)).1
  = (false, "Password must be at least 6 characters")
  /\ (signup "t" "" "s3cret" (session Demo.two_users)).1
     = (false, "Username and password cannot be empty").
Proof.
  split.
  - apply (signup_rejections "t" "carol" "" (session Demo.two_users)).
    split; [vm_compute; reflexivity | simpl; lia].
  - apply (signup_rejections "t" "" "s3cret" (session Demo.two_users)).
    split; [vm_compute; reflexivity |]. split; [simpl; lia | reflexivity].
Defined.


